(** * Progressive, cache-aware record loading in the HR dashboard

    A shallow embedding of the two loaders of the front end:

    - [Tracker]   : [HRAttendanceTracker.tsx]
                    ([fetchAttendanceData], [fetchRemainingRecords] and the
                    auto-load effect);
    - [Directory] : [HRDirectory.tsx]
                    ([refreshEmployeeData], [fetchAllRemainingAtOnce] and
                    [fetchRemainingEmployees]).

    React state is a record; every [setX] of the source is a record update.
    An [async] function is split at its [await apiCall(..)]: a [_begin] part
    (what runs before the request leaves), the request it sends, and a
    [_resolve] part (what runs when the response is there).  The [_resolve]
    part gets two states: the render the function was created in (its
    closure, from which it reads [offset], [attendanceData], the filter) and
    the state at the time of arrival (which the setters update).

    Both loaders map the records of a page before they store them
    ([transformStandardToAttendanceRecords] in the tracker, the [processedData]
    mapping in the directory): [results] is the page as the backend sent it,
    the accumulated lists hold the mapped records. *)

From stdpp Require Import gmap strings list pretty sorting.

Open Scope string_scope.
Open Scope list_scope.
Open Scope nat_scope.

(** ** Data shared by the two components *)

(** A record, on the wire and as it is stored: [id], [employee_id] and
    [name].  The loaders read [id] and [employee_id]; the mapping that
    precedes storing copies these two and rewrites [name].  The other fields
    ([department], the attendance figures, ...) are left out.  The name of a
    record on the wire is a string, empty when the record has none. *)
Record Row := mkRow {
  id : Z;
  employee_id : string;
  name : string
}.

#[global] Instance Row_eq_dec : EqDecision Row.
Proof. solve_decision. Defined.

(** The JSON body of a page: [results], [total_count], [has_more] and
    [performance.cached].  A response that is not [ok], or a rejected
    [apiCall], is [None] where a response is expected. *)
Record ApiResponse := mkResp {
  results : list Row;
  total_count : nat;
  has_more : bool;
  cached : bool
}.

(** [URLSearchParams]: an ordered list of key/value pairs. *)
Definition URLSearchParams := list (string * string).

Definition append (k v : string) (p : URLSearchParams) : URLSearchParams :=
  p ++ [(k, v)].

(** [params.set(k, v)]: the first pair of key [k] gets value [v], the other
    pairs of that key are removed; without such a pair, one is added. *)
Fixpoint set_param (k v : string) (p : URLSearchParams) : URLSearchParams :=
  match p with
  | [] => [(k, v)]
  | (k', v') :: rest =>
      if String.eqb k' k
      then (k, v) :: List.filter (fun kv => negb (String.eqb (fst kv) k)) rest
      else (k', v') :: set_param k v rest
  end.

Fixpoint get_param (k : string) (p : URLSearchParams) : option string :=
  match p with
  | [] => None
  | (k', v) :: rest => if String.eqb k' k then Some v else get_param k rest
  end.

(** One request: the filter part of the query string, and the [offset] and
    [limit] parameters (kept as numbers; [request_params] renders them). *)
Record Request := mkReq {
  rq_filter : URLSearchParams;
  rq_offset : nat;
  rq_limit : nat
}.

Definition request_params (rq : Request) : URLSearchParams :=
  append "limit" (pretty (rq_limit rq))
    (append "offset" (pretty (rq_offset rq)) (rq_filter rq)).

(** The backend, seen from one session. *)
Definition Server := Request -> option ApiResponse.

(** What a session sends, in order: which code path sent it, the timer delay
    (ms) that preceded it, the request, and the number of records in the
    accumulated list when it was sent. *)
Inductive Kind := FirstPage | Trickle | BulkRemainder.

#[global] Instance Kind_eq_dec : EqDecision Kind.
Proof. solve_decision. Defined.

Record Issued := mkIssued {
  iss_kind : Kind;
  iss_delay : nat;
  iss_req : Request;
  iss_have : nat
}.

Definition BATCH_SIZE : nat := 30.

(** JS truthiness of a string and of a number. *)
Definition truthy_str (s : string) : bool := negb (String.eqb s "").
Definition truthy_num (n : nat) : bool := negb (n =? 0).

(** The string operations of the run time that [cleanEmployeeName] calls:
    [s.replace(/\bnan\b/g, '')], [s.replace(/\s+/g, ' ')] and [s.trim()].
    The loaders are defined, and their properties proved, for whatever these
    operations are. *)
Class StringOps := mkStringOps {
  replace_nan : string -> string;
  replace_spaces : string -> string;
  trim : string -> string
}.

(** Two records collide when they share the numeric id or the employee id. *)
Definition collide (a b : Row) : Prop :=
  id a = id b \/ employee_id a = employee_id b.

(** No two records of the list collide. *)
Definition no_collision (l : list Row) : Prop :=
  NoDup (id <$> l) /\ NoDup (employee_id <$> l).

#[global] Instance no_collision_dec l : Decision (no_collision l).
Proof. unfold no_collision. apply _. Defined.

(** ** The backend as the loaders expect it

    Modelled from the spec: the paginated endpoint is not part of the front
    end.  It serves the records of [db] from [offset]; [limit = 0] means all
    the remaining ones; [has_more] says whether records remain after the
    page; [cachedAt] says which requests are answered from the cache. *)
Definition paged_server (db : list Row) (cachedAt : Request -> bool) : Server :=
  fun rq =>
    let rest := drop (rq_offset rq) db in
    Some {| results := if rq_limit rq =? 0 then rest else take (rq_limit rq) rest;
            total_count := length db;
            has_more := negb (rq_limit rq =? 0)
                        && (rq_offset rq + rq_limit rq <? length db);
            cached := cachedAt rq |}.

(** [n] records with distinct ids and employee ids, numbered from [from]. *)
Definition sample_row (i : nat) : Row :=
  {| id := Z.of_nat i; employee_id := "E" +:+ pretty i; name := "" |}.

Definition sample_db (from n : nat) : list Row := sample_row <$> seq from n.

(** ** HRAttendanceTracker.tsx *)
Module Tracker.

Inductive FilterType :=
| this_month | last_6_months | last_12_months | last_5_years
| custom | custom_month | custom_range | one_day.

#[global] Instance FilterType_eq_dec : EqDecision FilterType.
Proof. solve_decision. Defined.

Definition FilterType_string (f : FilterType) : string :=
  match f with
  | this_month => "this_month"
  | last_6_months => "last_6_months"
  | last_12_months => "last_12_months"
  | last_5_years => "last_5_years"
  | custom => "custom"
  | custom_month => "custom_month"
  | custom_range => "custom_range"
  | one_day => "one_day"
  end.

Definition monthNames : list string :=
  ["JAN"; "FEB"; "MAR"; "APR"; "MAY"; "JUN";
   "JUL"; "AUG"; "SEP"; "OCT"; "NOV"; "DEC"].

(** [monthNames.indexOf(m) + 1]; [indexOf] is [-1] for a stranger. *)
Fixpoint indexOf_succ (m : string) (l : list string) : nat :=
  match l with
  | [] => 0
  | x :: rest =>
      if String.eqb x m then 1
      else match indexOf_succ m rest with 0 => 0 | S i => S (S i) end
  end.

(** The filter fields of the component state. *)
Record Filter := mkFilter {
  filterType : FilterType;
  selectedMonth : string;
  selectedYear : nat;
  rangeStartDate : string;
  rangeEndDate : string;
  selectedDate : string
}.

#[global] Instance Filter_eq_dec : EqDecision Filter.
Proof. solve_decision. Defined.

(** The component state the loader reads and writes ([kpiTotals],
    [attendanceStatus] and [availableMonths] feed the display only). *)
Record State := mkState {
  filt : Filter;
  attendanceData : list Row;
  loading : bool;
  loadingMore : bool;
  error : option string;
  totalCount : nat;
  hasMore : bool;
  offset : nat
}.

Definition setFilter (f : Filter) (s : State) : State :=
  mkState f (attendanceData s) (loading s) (loadingMore s) (error s)
          (totalCount s) (hasMore s) (offset s).
Definition setAttendanceData (d : list Row) (s : State) : State :=
  mkState (filt s) d (loading s) (loadingMore s) (error s)
          (totalCount s) (hasMore s) (offset s).
Definition setLoading (b : bool) (s : State) : State :=
  mkState (filt s) (attendanceData s) b (loadingMore s) (error s)
          (totalCount s) (hasMore s) (offset s).
Definition setLoadingMore (b : bool) (s : State) : State :=
  mkState (filt s) (attendanceData s) (loading s) b (error s)
          (totalCount s) (hasMore s) (offset s).
Definition setError (e : option string) (s : State) : State :=
  mkState (filt s) (attendanceData s) (loading s) (loadingMore s) e
          (totalCount s) (hasMore s) (offset s).
Definition setTotalCount (n : nat) (s : State) : State :=
  mkState (filt s) (attendanceData s) (loading s) (loadingMore s) (error s)
          n (hasMore s) (offset s).
Definition setHasMore (b : bool) (s : State) : State :=
  mkState (filt s) (attendanceData s) (loading s) (loadingMore s) (error s)
          (totalCount s) b (offset s).
Definition setOffset (n : nat) (s : State) : State :=
  mkState (filt s) (attendanceData s) (loading s) (loadingMore s) (error s)
          (totalCount s) (hasMore s) n.

(** The [useState] initial values; [filterType] starts at ['last_5_years']. *)
Definition initial_filter : Filter :=
  mkFilter last_5_years "" 2025 "" "" "".

Definition initial_state (f : Filter) : State :=
  mkState f [] true false None 0 false 0.

(** The branches that add [month]/[year] or the date range, the same in
    [fetchAttendanceData] and in [fetchRemainingRecords]. *)
Definition period_params (f : Filter) (p : URLSearchParams) : URLSearchParams :=
  match filterType f with
  | custom | custom_month =>
      if truthy_str (selectedMonth f) && truthy_num (selectedYear f)
      then append "year" (pretty (selectedYear f))
             (append "month" (pretty (indexOf_succ (selectedMonth f) monthNames)) p)
      else p
  | custom_range =>
      if truthy_str (rangeStartDate f) && truthy_str (rangeEndDate f)
      then set_param "time_period" "custom_range"
             (append "end_date" (rangeEndDate f)
                (append "start_date" (rangeStartDate f) p))
      else p
  | one_day =>
      if truthy_str (selectedDate f)
      then set_param "time_period" "custom_range"
             (append "end_date" (selectedDate f)
                (append "start_date" (selectedDate f) p))
      else p
  | _ => p
  end.

(** [fetchAttendanceData], lines 174-202: ['custom_month'] is sent as
    ['custom']. *)
Definition fetchAttendanceData_params (f : Filter) : URLSearchParams :=
  period_params f
    (if decide (filterType f = custom_month)
     then append "time_period" "custom" []
     else append "time_period" (FilterType_string (filterType f)) []).

(** [fetchRemainingRecords], lines 334-353: [filterType] is sent as it is. *)
Definition fetchRemainingRecords_params (f : Filter) : URLSearchParams :=
  period_params f (append "time_period" (FilterType_string (filterType f)) []).

(** [fetchAttendanceData(loadMore)] up to the request. *)
Definition fetchAttendanceData_begin (loadMore : bool) (s : State) : State :=
  if loadMore then setLoadingMore true s
  else setOffset 0 (setLoading true s).

(** The request; [c] is the render the function closes over. *)
Definition fetchAttendanceData_request (loadMore : bool) (c : State) : Request :=
  {| rq_filter := fetchAttendanceData_params (filt c);
     rq_offset := if loadMore then offset c else 0;
     rq_limit := BATCH_SIZE |}.

Definition noDataMessage (f : Filter) : string :=
  if bool_decide (filterType f = custom_range)
     && truthy_str (rangeStartDate f) && truthy_str (rangeEndDate f)
  then "No attendance data found for the selected date range ("
       +:+ rangeStartDate f +:+ " to " +:+ rangeEndDate f
       +:+ "). Please check if daily attendance data has been uploaded for this period."
  else if bool_decide (filterType f = custom_month)
          && truthy_str (selectedMonth f) && truthy_num (selectedYear f)
  then "No attendance data found for " +:+ selectedMonth f +:+ " "
       +:+ pretty (selectedYear f)
       +:+ ". Please check if daily attendance data has been uploaded for this month."
  else "No attendance data available yet".

(** The [finally] block. *)
Definition fetchAttendanceData_finally (s : State) : State :=
  setLoadingMore false (setLoading false s).

Section loader.
Context {ops : StringOps}.

(** [cleanEmployeeName], lines 480-484. *)
Definition cleanEmployeeName (name : string) : string :=
  if negb (truthy_str name) then "Unknown"
  else
    let cleaned := trim (replace_spaces (replace_nan name)) in
    if truthy_str cleaned then cleaned else "Unknown".

(** [transformStandardToAttendanceRecords], lines 507-526, on the fields of
    [Row]: [id] and [employee_id] are copied, and the name is
    [cleanEmployeeName(record.name || record.employee_name || 'Unknown')].
    The [name] of the record on the wire stands for
    [record.name || record.employee_name]: the first of the two that is not
    empty, and the empty string when there is none. *)
Definition transformStandardToAttendanceRecords (attendanceRecords : list Row)
    : list Row :=
  (fun record =>
     mkRow (id record) (employee_id record)
           (cleanEmployeeName
              (if truthy_str (name record) then name record else "Unknown")))
  <$> attendanceRecords.

(** [fetchAttendanceData(loadMore)] from the response on.  [c] is the
    closure, [s] the state on arrival.  The second component is the
    [setTimeout(.., 100)] for [fetchRemainingRecords(BATCH_SIZE,
    total_count)], when it is set. *)
Definition fetchAttendanceData_resolve (loadMore : bool) (c : State)
    (resp : option ApiResponse) (s : State) : State * option (nat * nat) :=
  match resp with
  | Some r =>
      let s := setHasMore (has_more r) (setTotalCount (total_count r) s) in
      let currentOffset := if loadMore then offset c else 0 in
      let transformedData := transformStandardToAttendanceRecords (results r) in
      let '(s, bulk) :=
        if loadMore
        then (setOffset (currentOffset + BATCH_SIZE)
                (setAttendanceData (attendanceData c ++ transformedData) s),
              None)
        else (setOffset BATCH_SIZE (setAttendanceData transformedData s),
              if cached r && has_more r && (BATCH_SIZE <? total_count r)
              then Some (BATCH_SIZE, total_count r) else None) in
      let s := setError None s in
      let s :=
        if length transformedData =? 0
        then setAttendanceData [] (setError (Some (noDataMessage (filt c))) s)
        else s in
      (fetchAttendanceData_finally s, bulk)
  | None =>
      (fetchAttendanceData_finally
         (setAttendanceData [] (setError (Some "Failed to load attendance data") s)),
       None)
  end.

(** [fetchRemainingRecords(currentOffset, totalRecords)]. *)
Definition fetchRemainingRecords_begin (s : State) : State :=
  setLoadingMore true s.

Definition fetchRemainingRecords_request (currentOffset : nat) (c : State) : Request :=
  {| rq_filter := fetchRemainingRecords_params (filt c);
     rq_offset := currentOffset;
     rq_limit := 0 |}.

Definition fetchRemainingRecords_resolve (totalRecords : nat)
    (resp : option ApiResponse) (s : State) : State :=
  match resp with
  | Some r =>
      let transformedData := transformStandardToAttendanceRecords (results r) in
      setLoadingMore false
        (setOffset totalRecords
           (setHasMore false
              (setAttendanceData (attendanceData s ++ transformedData) s)))
  | None =>
      (* "Fall back to progressive loading" *)
      setLoadingMore false (setHasMore true s)
  end.

(** The condition of the auto-load effect (line 390): when it holds, a
    500 ms timer is set that calls [fetchAttendanceData(true)]. *)
Definition autoLoadArmed (s : State) : bool :=
  hasMore s && negb (loading s) && negb (loadingMore s)
  && (0 <? length (attendanceData s)).

(** The auto-load effect, run until its condition fails: each round waits
    500 ms, sends the next page and handles the response.  [fuel] bounds the
    number of rounds (a server that always answers [has_more] keeps the
    effect going for ever). *)
Fixpoint autoLoad (fuel : nat) (server : Server) (s : State) : State * list Issued :=
  match fuel with
  | 0 => (s, [])
  | S fuel' =>
      if autoLoadArmed s then
        let rq := fetchAttendanceData_request true s in
        let s1 := fetchAttendanceData_begin true s in
        let s2 := fst (fetchAttendanceData_resolve true s (server rq) s1) in
        let '(s3, tr) := autoLoad fuel' server s2 in
        (s3, mkIssued Trickle 500 rq (length (attendanceData s)) :: tr)
      else (s, [])
  end.

(** One session, from [fetchAttendanceData()] to rest.  The 100 ms timer of
    the bulk fetch runs out before the 500 ms timer of the auto-load effect,
    and [fetchRemainingRecords] sets [loadingMore], which clears the latter:
    the bulk fetch goes first, the auto-load effect takes over after it. *)
Definition session (fuel : nat) (server : Server) (s0 : State) : State * list Issued :=
  let rq0 := fetchAttendanceData_request false s0 in
  let s1 := fetchAttendanceData_begin false s0 in
  let '(s2, bulk) := fetchAttendanceData_resolve false s0 (server rq0) s1 in
  let first := mkIssued FirstPage 0 rq0 0 in
  match bulk with
  | Some (currentOffset, totalRecords) =>
      let rqb := fetchRemainingRecords_request currentOffset s0 in
      let s3 := fetchRemainingRecords_begin s2 in
      let s4 := fetchRemainingRecords_resolve totalRecords (server rqb) s3 in
      let '(s5, tr) := autoLoad fuel server s4 in
      (s5, first :: mkIssued BulkRemainder 100 rqb (length (attendanceData s2)) :: tr)
  | None =>
      let '(s5, tr) := autoLoad fuel server s2 in
      (s5, first :: tr)
  end.

(** *** The controls, the effects and the requests in flight

    The component between and across sessions: the filter controls, the
    effects keyed on the filter fields (lines 402-454), the auto-load timer
    with the closure it holds, and the responses to the requests that are
    out.  One step is one handler, or one continuation of an [async]
    function, with the renders and the effects it leads to; the setters of
    one handler take effect together. *)

Definition setFilterType (t : FilterType) (f : Filter) : Filter :=
  mkFilter t (selectedMonth f) (selectedYear f)
           (rangeStartDate f) (rangeEndDate f) (selectedDate f).
Definition setSelectedMonth (m : string) (f : Filter) : Filter :=
  mkFilter (filterType f) m (selectedYear f)
           (rangeStartDate f) (rangeEndDate f) (selectedDate f).
Definition setSelectedYear (y : nat) (f : Filter) : Filter :=
  mkFilter (filterType f) (selectedMonth f) y
           (rangeStartDate f) (rangeEndDate f) (selectedDate f).

(** The effects of lines 402-416 and 430-454, after a render in which the
    filter fields went from [prev] to [f]: an effect runs when one of its
    dependencies has changed, and calls [fetchAttendanceData()] when its
    condition holds.  The conditions exclude each other, so at most one
    effect fetches. *)
Definition filterEffectFetches (prev f : Filter) : bool :=
  let type_changed := bool_decide (filterType prev <> filterType f) in
  let month_changed := bool_decide (selectedMonth prev <> selectedMonth f) in
  let year_changed := bool_decide (selectedYear prev <> selectedYear f) in
  let start_changed := bool_decide (rangeStartDate prev <> rangeStartDate f) in
  let end_changed := bool_decide (rangeEndDate prev <> rangeEndDate f) in
  let date_changed := bool_decide (selectedDate prev <> selectedDate f) in
  match filterType f with
  | last_6_months | last_12_months | last_5_years => type_changed
  | custom | custom_month =>
      (type_changed || month_changed || year_changed)
      && truthy_str (selectedMonth f) && truthy_num (selectedYear f)
  | custom_range =>
      (type_changed || start_changed || end_changed)
      && truthy_str (rangeStartDate f) && truthy_str (rangeEndDate f)
  | one_day => (type_changed || date_changed) && truthy_str (selectedDate f)
  | this_month => false
  end.

(** The effect of lines 419-428, whose only dependency is [filterType]: when
    the filter type has become ['custom_month'] and no month or no year is
    selected, the current month and year are selected.  [nowMonth] is
    [new Date().getMonth()], [nowYear] is [new Date().getFullYear()]. *)
Definition autoSelectCurrentMonth (nowMonth nowYear : nat) (prev f : Filter) : Filter :=
  if bool_decide (filterType prev <> filterType f)
     && bool_decide (filterType f = custom_month)
     && (negb (truthy_str (selectedMonth f)) || negb (truthy_num (selectedYear f)))
  then setSelectedYear nowYear
         (setSelectedMonth (default "" (monthNames !! nowMonth)) f)
  else f.

(** The dependencies of the auto-load effect (line 399). *)
Definition autoLoadDeps (s : State) : bool * bool * bool * nat :=
  (hasMore s, loading s, loadingMore s, length (attendanceData s)).

(** The auto-load effect after a render that takes the state from [prev] to
    [next]; [timer] is the timer that is set, if any, with the render whose
    [fetchAttendanceData] it is going to call.  With the dependencies
    unchanged the effect does not run and the timer stays, with its closure;
    otherwise the cleanup clears it and a new one is set, for this render,
    when the condition holds. *)
Definition autoLoadEffect (prev next : State) (timer : option State) : option State :=
  if decide (autoLoadDeps prev = autoLoadDeps next) then timer
  else if autoLoadArmed next then Some next else None.

(** A request that has left and has not been answered yet: the call that
    sent it, with its closure and, for the bulk fetch, [totalRecords]. *)
Record Pending := mkPending {
  pd_kind : Kind;
  pd_closure : State;
  pd_total : nat
}.

Record World := mkWorld {
  now : State;
  pending : list Pending;
  timer : option State
}.

(** After mount: the effect of lines 402-408 has called
    [fetchAttendanceData()], the filter type being ['last_5_years']. *)
Definition mounted : World :=
  let s := initial_state initial_filter in
  mkWorld (fetchAttendanceData_begin false s) [mkPending FirstPage s 0] None.

(** [fetchAttendanceData()] called from the render [now w], up to its
    request. *)
Definition fetchAttendanceData_call (w : World) : World :=
  let s := fetchAttendanceData_begin false (now w) in
  mkWorld s (pending w ++ [mkPending FirstPage (now w) 0])
          (autoLoadEffect (now w) s (timer w)).

(** The fetching effects after the render [now w], the filter having been
    [prev] in the render before. *)
Definition fetchEffects (prev : Filter) (w : World) : World :=
  if filterEffectFetches prev (filt (now w)) then fetchAttendanceData_call w else w.

Definition withFilter (f : Filter) (w : World) : World :=
  mkWorld (setFilter f (now w)) (pending w) (timer w).

(** The events: the filter-type dropdown (lines 610-620, with the date that
    the auto-select effect reads, should it run), the year and the month
    dropdown of ['custom_month'] (lines 637-668), the auto-load timer running
    out, and the arrival of the response to the pending request [i].  The
    month dropdown of ['custom'] and the date pickers are not among them. *)
Inductive Event :=
| SetFilterType (t : FilterType) (nowMonth nowYear : nat)
| SetYear (y : nat)
| SetMonth (m : string)
| AutoLoadTimer
| Arrive (i : nat) (resp : option ApiResponse).

Definition step (w : World) (e : Event) : World :=
  match e with
  | SetFilterType t nowMonth nowYear =>
      (* while [loading], a skeleton is shown in place of the dropdown *)
      if loading (now w) then w
      else
        let prev := filt (now w) in
        let f := setFilterType t prev in
        let w1 := fetchEffects prev (withFilter f w) in
        (* the auto-select effect of the same render, and the render its
           setters lead to *)
        let f' := autoSelectCurrentMonth nowMonth nowYear prev f in
        fetchEffects f (withFilter f' w1)
  | SetYear y =>
      (* [setSelectedYear(parseInt(value)); setSelectedMonth('')] *)
      let prev := filt (now w) in
      if bool_decide (filterType prev = custom_month)
      then fetchEffects prev (withFilter (setSelectedMonth "" (setSelectedYear y prev)) w)
      else w
  | SetMonth m =>
      let prev := filt (now w) in
      if bool_decide (filterType prev = custom_month)
      then fetchEffects prev (withFilter (setSelectedMonth m prev) w)
      else w
  | AutoLoadTimer =>
      match timer w with
      | Some c =>
          let s := fetchAttendanceData_begin true (now w) in
          mkWorld s (pending w ++ [mkPending Trickle c 0])
                  (autoLoadEffect (now w) s None)
      | None => w
      end
  | Arrive i resp =>
      match pending w !! i with
      | None => w
      | Some p =>
          let rest := delete i (pending w) in
          match pd_kind p with
          | FirstPage =>
              let '(s, bulk) :=
                fetchAttendanceData_resolve false (pd_closure p) resp (now w) in
              let t := autoLoadEffect (now w) s (timer w) in
              match bulk with
              | Some (_, totalRecords) =>
                  let s' := fetchRemainingRecords_begin s in
                  mkWorld s'
                          (rest ++ [mkPending BulkRemainder (pd_closure p) totalRecords])
                          (autoLoadEffect s s' t)
              | None => mkWorld s rest t
              end
          | Trickle =>
              let s := fst (fetchAttendanceData_resolve true (pd_closure p) resp (now w)) in
              mkWorld s rest (autoLoadEffect (now w) s (timer w))
          | BulkRemainder =>
              let s := fetchRemainingRecords_resolve (pd_total p) resp (now w) in
              mkWorld s rest (autoLoadEffect (now w) s (timer w))
          end
      end
  end.

Definition run (w : World) (es : list Event) : World := foldl step w es.

End loader.

End Tracker.

(** ** HRDirectory.tsx *)
Module Directory.

Record State := mkState {
  employees : list Row;
  loading : bool;
  loadingMore : bool;
  error : option string;
  totalCount : nat;
  hasMore : bool;
  offset : nat
}.

Definition setEmployees (d : list Row) (s : State) : State :=
  mkState d (loading s) (loadingMore s) (error s) (totalCount s) (hasMore s) (offset s).
Definition setLoading (b : bool) (s : State) : State :=
  mkState (employees s) b (loadingMore s) (error s) (totalCount s) (hasMore s) (offset s).
Definition setLoadingMore (b : bool) (s : State) : State :=
  mkState (employees s) (loading s) b (error s) (totalCount s) (hasMore s) (offset s).
Definition setError (e : option string) (s : State) : State :=
  mkState (employees s) (loading s) (loadingMore s) e (totalCount s) (hasMore s) (offset s).
Definition setTotalCount (n : nat) (s : State) : State :=
  mkState (employees s) (loading s) (loadingMore s) (error s) n (hasMore s) (offset s).
Definition setHasMore (b : bool) (s : State) : State :=
  mkState (employees s) (loading s) (loadingMore s) (error s) (totalCount s) b (offset s).
Definition setOffset (n : nat) (s : State) : State :=
  mkState (employees s) (loading s) (loadingMore s) (error s) (totalCount s) (hasMore s) n.

Definition initial_state : State := mkState [] true false None 0 false 0.

(** What [normalizeField] is given: [string | number | undefined | null].
    The numbers are taken to be integers. *)
Inductive FieldValue :=
| FNull | FUndefined | FStr (s : string) | FNum (n : Z).

(** [normalizeField(value, defaultValue = '-')], lines 540-545. *)
Definition normalizeField (value : FieldValue) (defaultValue : string) : string :=
  match value with
  | FNull | FUndefined => defaultValue
  | FStr s => if String.eqb s "" || String.eqb s "0" then defaultValue else s
  | FNum n => pretty n
  end.

(** The mapping of a page before it is stored, the same at its four places
    (lines 122-147, 219-244, 295-320 and 349-374), on the fields of [Row]:
    [id] and [employee_id] are copied, [name] is
    [normalizeField(employee.name)].  A name that is missing is the empty
    string here: [normalizeField] gives the default for both. *)
Definition processedData (directoryData : list Row) : list Row :=
  (fun employee =>
     mkRow (id employee) (employee_id employee)
           (normalizeField (FStr (name employee)) "-"))
  <$> directoryData.

(** The "DEDUPLICATE" step, the same at its four places: the records of the
    batch whose [id] and [employee_id] are both new with respect to [prev].
    [existingIds] and [existingEmployeeIds] are the two [Set]s. *)
Definition newEmployees (prev batch : list Row) : list Row :=
  let existingIds : gset Z := list_to_set (id <$> prev) in
  let existingEmployeeIds : gset string := list_to_set (employee_id <$> prev) in
  filter (fun e => (id e ∉ existingIds) /\ (employee_id e ∉ existingEmployeeIds)) batch.

(** [setEmployees(prev => [...prev, ...newEmployees])]. *)
Definition mergeEmployees (batch : list Row) (s : State) : State :=
  setEmployees (employees s ++ newEmployees (employees s) batch) s.

(** The timers [refreshEmployeeData] sets after the first page. *)
Inductive Timer :=
| AllRemainingAtOnce (startOffset remainingCount : nat)   (* after 100 ms *)
| RemainingEmployees (startOffset total : nat).           (* after 500 ms *)

Definition refreshEmployeeData_begin (loadMore : bool) (s : State) : State :=
  if loadMore then setLoadingMore true s
  else setOffset 0 (setLoading true s).

Definition refreshEmployeeData_request (loadMore : bool) (c : State) : Request :=
  {| rq_filter := [];
     rq_offset := if loadMore then offset c else 0;
     rq_limit := BATCH_SIZE |}.

Definition refreshEmployeeData_finally (s : State) : State :=
  setLoadingMore false (setLoading false s).

(** [refreshEmployeeData(loadMore)] from the response on; [c] is the closure,
    [s] the state on arrival. *)
Definition refreshEmployeeData_resolve (loadMore : bool) (c : State)
    (resp : option ApiResponse) (s : State) : State * option Timer :=
  match resp with
  | Some r =>
      let s := setHasMore (has_more r) (setTotalCount (total_count r) s) in
      let currentOffset := if loadMore then offset c else 0 in
      let processedData := processedData (results r) in
      let '(s, timer) :=
        if loadMore
        then (setOffset (currentOffset + BATCH_SIZE)
                (setEmployees (employees c ++ newEmployees (employees c) processedData) s),
              None)
        else (setOffset BATCH_SIZE (setEmployees processedData s),
              if cached r && has_more r && (BATCH_SIZE <? total_count r)
              then Some (AllRemainingAtOnce BATCH_SIZE (total_count r - BATCH_SIZE))
              else if has_more r && (BATCH_SIZE <? total_count r)
              then Some (RemainingEmployees BATCH_SIZE (total_count r))
              else None) in
      (refreshEmployeeData_finally (setError None s), timer)
  | None =>
      (refreshEmployeeData_finally
         (setError (Some "Failed to refresh employee data") s), None)
  end.

Definition batch_request (currentOffset limit : nat) : Request :=
  {| rq_filter := []; rq_offset := currentOffset; rq_limit := limit |}.

(** [fetchAllRemainingAtOnce(startOffset, remainingCount)]; [delay] is the
    timer that preceded the call (100 ms after the first page, 50 ms inside
    [fetchRemainingEmployees]). *)
Definition fetchAllRemainingAtOnce (delay : nat) (server : Server)
    (startOffset remainingCount : nat) (s : State) : State * list Issued :=
  let rq := batch_request startOffset remainingCount in
  let sent := [mkIssued BulkRemainder delay rq (length (employees s))] in
  match server rq with
  | None => (s, sent)
  | Some r =>
      let processedBatch := processedData (results r) in
      (setHasMore false (mergeEmployees processedBatch s), sent)
  end.

(** The [while (currentOffset < total)] loop of [fetchRemainingEmployees],
    followed by the [setHasMore(false)] after it.  [currentOffset] grows by
    [BATCH_SIZE] in each round, so [total - currentOffset + 1] rounds of
    [fuel] are never used up. *)
Fixpoint fetchRemainingEmployees_loop (fuel : nat) (server : Server)
    (startOffset total currentOffset : nat) (s : State) : State * list Issued :=
  match fuel with
  | 0 => (s, [])
  | S fuel' =>
      if currentOffset <? total then
        let rq := batch_request currentOffset BATCH_SIZE in
        let sent := mkIssued Trickle 500 rq (length (employees s)) in
        match server rq with
        | None => (setHasMore false s, [sent])              (* break *)
        | Some r =>
            if cached r && (currentOffset =? startOffset) then
              let processedBatch := processedData (results r) in
              let s1 := mergeEmployees processedBatch s in
              let currentOffset := currentOffset + BATCH_SIZE in
              let remaining := total - currentOffset in
              if 0 <? remaining then
                let '(s2, tr) :=
                  fetchAllRemainingAtOnce 50 server currentOffset remaining s1 in
                (s2, sent :: tr)                              (* return *)
              else (setHasMore false s1, [sent])              (* return *)
            else if length (results r) =? 0 then
              (setHasMore false s, [sent])                    (* break *)
            else
              let processedBatch := processedData (results r) in
              let s1 := mergeEmployees processedBatch s in
              let '(s2, tr) :=
                fetchRemainingEmployees_loop fuel' server startOffset total
                  (currentOffset + BATCH_SIZE) s1 in
              (s2, sent :: tr)
        end
      else (setHasMore false s, [])
  end.

Definition fetchRemainingEmployees (server : Server) (startOffset total : nat)
    (s : State) : State * list Issued :=
  fetchRemainingEmployees_loop (S total) server startOffset total startOffset s.

(** One session: [refreshEmployeeData()] on mount, then the timer it set. *)
Definition session (server : Server) (s0 : State) : State * list Issued :=
  let rq0 := refreshEmployeeData_request false s0 in
  let s1 := refreshEmployeeData_begin false s0 in
  let '(s2, timer) := refreshEmployeeData_resolve false s0 (server rq0) s1 in
  let first := mkIssued FirstPage 0 rq0 0 in
  match timer with
  | Some (AllRemainingAtOnce startOffset remainingCount) =>
      let '(s3, tr) := fetchAllRemainingAtOnce 100 server startOffset remainingCount s2 in
      (s3, first :: tr)
  | Some (RemainingEmployees startOffset total) =>
      let '(s3, tr) := fetchRemainingEmployees server startOffset total s2 in
      (s3, first :: tr)
  | None => (s2, [first])
  end.

End Directory.

(** * Traces *)

(** Offsets and limits of a trace. *)
Definition offsets (tr : list Issued) : list nat := (fun e => rq_offset (iss_req e)) <$> tr.
Definition offset_limit (tr : list Issued) : list (nat * nat) :=
  (fun e => (rq_offset (iss_req e), rq_limit (iss_req e))) <$> tr.


(** [n] offsets from [o] on, in steps of [BATCH_SIZE]. *)
Definition batch_offsets (o n : nat) : list nat :=
  (fun j => o + BATCH_SIZE * j) <$> seq 0 n.

(** A bulk request, when there is one, is the last request of the trace. *)
Definition bulk_is_last (tr : list Issued) : Prop :=
  forall i e, tr !! i = Some e -> iss_kind e = BulkRemainder -> S i = length tr.


(** * Backends *)

(** A server that hides the cache flag of the responses to the requests
    outside [keep]. *)
Definition mask_cached (keep : Request -> bool) (server : Server) : Server :=
  fun rq =>
    match server rq with
    | Some r =>
        Some (mkResp (results r) (total_count r) (has_more r) (keep rq && cached r))
    | None => None
    end.

(** A server that fails on the requests in [down] and answers the others as
    [server] does. *)
Definition failing_at (down : Request -> bool) (server : Server) : Server :=
  fun rq => if down rq then None else server rq.

(** A backend that answers the requests at the offsets listed, and fails on
    the others. *)
Fixpoint scripted (pages : list (nat * ApiResponse)) : Server :=
  fun rq =>
    match pages with
    | [] => None
    | (o, r) :: rest => if rq_offset rq =? o then Some r else scripted rest rq
    end.

(** 130 records, every page served from the cache. *)
Definition all_cached : Server :=
  paged_server (sample_db 1 130) (fun _ => true).

(** 130 records; the cache is cold for the first page and warm after it. *)
Definition cache_warms_early : Server :=
  paged_server (sample_db 1 130) (fun rq => 30 <=? rq_offset rq).

(** 130 records; the cache is cold for the pages at offsets 0 and 30 and
    warm from offset 60 on. *)
Definition cache_warms_late : Server :=
  paged_server (sample_db 1 130) (fun rq => 60 <=? rq_offset rq).

(** 130 records, nothing cached, and the request at offset 60 fails: the
    third of the five batches of a trickle session. *)
Definition third_batch_fails : Server :=
  failing_at (fun rq => rq_offset rq =? 60)
             (paged_server (sample_db 1 130) (fun _ => false)).

(** 130 records, everything cached, and the bulk request (the one whose
    limit is not the batch size) fails. *)
Definition bulk_fails : Server :=
  failing_at (fun rq => negb (rq_limit rq =? BATCH_SIZE))
             (paged_server (sample_db 1 130) (fun _ => true)).

(** A record was inserted on the backend between the two pages: the record
    numbered 30 is the last of the first page and the first of the second. *)
Definition shifted_backend : Server :=
  scripted [(0, mkResp (sample_db 1 30) 40 true false);
            (30, mkResp (sample_db 30 11) 40 false false)].


(** Two filters, and what the backend holds for the last six months: three
    records numbered from 101. *)
Definition filter_12 : Tracker.Filter :=
  Tracker.mkFilter Tracker.last_12_months "" 2025 "" "" "".
Definition filter_6 : Tracker.Filter :=
  Tracker.mkFilter Tracker.last_6_months "" 2025 "" "" "".
Definition page_6 : ApiResponse := mkResp (sample_db 101 3) 3 false false.

(** What the backend holds for the last five years, the filter at mount:
    five records numbered from 1. *)
Definition page_5y : ApiResponse := mkResp (sample_db 1 5) 5 false false.




(** * HRAttendanceTracker.tsx: the code around the loader *)
Module TrackerUI.
Import Tracker.

(** The request a pending call has sent. *)
Definition pending_request (p : Pending) : Request :=
  match pd_kind p with
  | FirstPage => fetchAttendanceData_request false (pd_closure p)
  | Trickle => fetchAttendanceData_request true (pd_closure p)
  | BulkRemainder => fetchRemainingRecords_request BATCH_SIZE (pd_closure p)
  end.

(** The listener for ['dataUploaded'], ['employeeAdded'] and
    ['attendanceUpdated'] (lines 456-475).  The effect that registers it has
    no dependencies: [handleDataChange], and the [fetchAttendanceData] it
    calls, are those of the mount render, whose state is the [useState]
    initial values. *)
Definition handleDataChange (w : World) : World :=
  let s := fetchAttendanceData_begin false (now w) in
  mkWorld s (pending w ++ [mkPending FirstPage (initial_state initial_filter) 0])
          (autoLoadEffect (now w) s (timer w)).

(** [generateYears] (lines 98-110); [currentYear] is
    [new Date().getFullYear()].  The loop pushes the years from
    [currentYear - 5] to [currentYear + 1]; [sort((a, b) => b - a)] puts
    them in descending order ([descending a b]: [a] may come before [b]). *)
Definition descending (a b : Z) : Prop := (b <= a)%Z.

#[global] Instance descending_dec (a b : Z) : Decision (descending a b).
Proof. unfold descending. apply _. Defined.

Definition generateYears (currentYear : Z) : list Z :=
  let years := seqZ (currentYear - 5) ((currentYear + 1) - (currentYear - 5) + 1) in
  merge_sort descending years.

End TrackerUI.

(** A load-more request of the tracker: 30 records, 500 ms after the answer
    before it, with the filter parameters [filter]. *)
Definition load_more_with (filter : URLSearchParams) (e : Issued) : Prop :=
  iss_kind e = Trickle /\ iss_delay e = 500
  /\ rq_filter (iss_req e) = filter /\ rq_limit (iss_req e) = BATCH_SIZE.

(** * Strings as the display code uses them *)

(** [s.includes(t)]: [t] occurs in [s]. *)
Fixpoint includes (s t : string) : bool :=
  String.prefix t s
  || match s with
     | EmptyString => false
     | String _ s' => includes s' t
     end.

(** [s.trim() === '']: every character of [s] is white space; [white] says
    which characters [trim] strips. *)
Definition blank (white : Ascii.ascii -> bool) (s : string) : bool :=
  forallb white (String.list_ascii_of_string s).

(** The department label shown for [dept], common to the two components:
    [(dept && dept.trim() !== '' && dept !== '0') ? dept : label]. *)
Definition normalizeDepartmentOr (label : string) (white : Ascii.ascii -> bool)
    (dept : option string) : string :=
  match dept with
  | Some d =>
      if truthy_str d && negb (blank white d) && negb (String.eqb d "0")
      then d else label
  | None => label
  end.

(** White space and lower case on the ASCII characters, for the examples. *)
Definition ascii_white (c : Ascii.ascii) : bool :=
  bool_decide (Ascii.nat_of_ascii c ∈ [9; 10; 11; 12; 13; 32]).

Definition ascii_lower (c : Ascii.ascii) : Ascii.ascii :=
  let n := Ascii.nat_of_ascii c in
  if (65 <=? n) && (n <=? 90) then Ascii.ascii_of_nat (n + 32) else c.

Fixpoint ascii_toLowerCase (s : string) : string :=
  match s with
  | EmptyString => EmptyString
  | String c s' => String (ascii_lower c) (ascii_toLowerCase s')
  end.

(** The operations of [StringOps] on ASCII strings, for the examples.  A word
    character is a letter, a digit or [_]; [\b] is between a word character
    and a character that is none, or the end. *)
Definition ascii_word (c : Ascii.ascii) : bool :=
  let n := Ascii.nat_of_ascii c in
  ((48 <=? n) && (n <=? 57)) || ((65 <=? n) && (n <=? 90))
  || ((97 <=? n) && (n <=? 122)) || (n =? 95).

(** [skip] characters are still to be dropped; [after_word] says whether the
    character before is a word character. *)
Fixpoint ascii_replace_nan_from (skip : nat) (after_word : bool) (s : string) : string :=
  match s with
  | EmptyString => EmptyString
  | String c s' =>
      match skip with
      | S k => ascii_replace_nan_from k (ascii_word c) s'
      | 0 =>
          if negb after_word && String.prefix "nan" s
             && negb (match s with
                      | String _ (String _ (String _ (String d _))) => ascii_word d
                      | _ => false
                      end)
          then ascii_replace_nan_from 2 (ascii_word c) s'
          else String c (ascii_replace_nan_from 0 (ascii_word c) s')
      end
  end.

Fixpoint ascii_replace_spaces_from (in_run : bool) (s : string) : string :=
  match s with
  | EmptyString => EmptyString
  | String c s' =>
      if ascii_white c
      then if in_run then ascii_replace_spaces_from true s'
           else String (Ascii.ascii_of_nat 32) (ascii_replace_spaces_from true s')
      else String c (ascii_replace_spaces_from false s')
  end.

Fixpoint ascii_trimStart (s : string) : string :=
  match s with
  | EmptyString => EmptyString
  | String c s' => if ascii_white c then ascii_trimStart s' else s
  end.

Definition ascii_ops : StringOps :=
  {| replace_nan := ascii_replace_nan_from 0 false;
     replace_spaces := ascii_replace_spaces_from false;
     trim := fun s => String.rev (ascii_trimStart (String.rev (ascii_trimStart s))) |}.

(** * HRDirectory.tsx: the code around the loader *)
Module DirectoryUI.
Import Directory (FieldValue, FNull, FUndefined, FStr, FNum, normalizeField).

(** The fields of [EmployeeData] that the code below reads: the identity and
    name ([ident]), and four more. *)
Record EmployeeData := mkEmployee {
  ident : Row;
  department : string;
  designation : string;
  is_active : bool;
  inactive_marked_at : option string
}.

(** An employee as the API sends it (the same fields). *)
Record RawEmployee := mkRaw {
  raw_id : Z;
  raw_employee_id : string;
  raw_name : FieldValue;
  raw_department : option string;
  raw_designation : FieldValue;
  raw_is_active : option bool;
  raw_inactive_marked_at : option string
}.

Section display.
Variable toLowerCase : string -> string.
Variable white : Ascii.ascii -> bool.

(** [normalizeDepartment], line 523. *)
Definition normalizeDepartment (dept : option string) : string :=
  normalizeDepartmentOr "-" white dept.

(** The mapping of lines 122-146 ([processedData]), on the fields above; the
    batches of [fetchAllRemainingAtOnce] and [fetchRemainingEmployees] are
    mapped in the same way (lines 219-244, 295-320 and 349-374). *)
Definition processEmployee (employee : RawEmployee) : EmployeeData :=
  {| ident := mkRow (raw_id employee) (raw_employee_id employee)
                    (normalizeField (raw_name employee) "-");
     department := normalizeDepartment (raw_department employee);
     designation := normalizeField (raw_designation employee) "-";
     is_active := default false (raw_is_active employee);
     inactive_marked_at :=
       match raw_inactive_marked_at employee with
       | Some s => if truthy_str s then Some s else None
       | None => None
       end |}.

(** The test of [filteredEmployees], lines 492-510.  The fields are strings,
    so that the [catch] branch is not taken. *)
Definition employeeShown (selectedDepartments : list string) (searchQuery : string)
    (employee : EmployeeData) : bool :=
  if (0 <? length selectedDepartments)
     && negb (bool_decide (department employee ∈ selectedDepartments))
  then false
  else if negb (truthy_str searchQuery) then true
  else
    let query := toLowerCase searchQuery in
    includes (toLowerCase (name (ident employee))) query
    || includes (toLowerCase (employee_id (ident employee))) query
    || includes (toLowerCase (department employee)) query
    || includes (toLowerCase (designation employee)) query.

Definition filteredEmployees (selectedDepartments : list string) (searchQuery : string)
    (employees : list EmployeeData) : list EmployeeData :=
  List.filter (employeeShown selectedDepartments searchQuery) employees.

(** [departmentOptions], lines 548-554: the labels of the departments of the
    loaded employees, each once.  The array is sorted with [localeCompare];
    its order is not modelled, its elements are. *)
Definition departmentOptions (employees : list EmployeeData) : gset string :=
  list_to_set ((fun emp => normalizeDepartment (Some (department emp))) <$> employees).

End display.

(** [handleToggleActiveStatus(employeeId, currentStatus)], lines 557-584,
    from the response on: [Some inactiveMarkedAt] for a response that is
    [ok] ([data?.inactive_marked_at ?? null]), [None] for a failure, which is
    passed over in silence. *)
Definition handleToggleActiveStatus (employeeId : Z) (currentStatus : bool)
    (resp : option (option string)) (employees : list EmployeeData)
    : list EmployeeData :=
  match resp with
  | Some inactiveMarkedAt =>
      (fun emp =>
         if bool_decide (id (ident emp) = employeeId)
         then mkEmployee (ident emp) (department emp) (designation emp)
                         (negb currentStatus) inactiveMarkedAt
         else emp) <$> employees
  | None => employees
  end.

(** The filter dialog, lines 629 and 976-995: the state is the applied
    selection, the pending one and whether the dialog is open. *)
Record FilterDialog := mkDialog {
  selectedDepartments : list string;
  pendingDepartments : list string;
  showFilter : bool
}.

Inductive DialogEvent :=
| OpenFilter
| Check (dept : string) (checked : bool)
| Cancel
| Apply.

Definition dialog_step (d : FilterDialog) (e : DialogEvent) : FilterDialog :=
  match e with
  | OpenFilter => mkDialog (selectedDepartments d) (selectedDepartments d) true
  | Check dept checked =>
      mkDialog (selectedDepartments d)
               (if checked then pendingDepartments d ++ [dept]
                else filter (fun x => x <> dept) (pendingDepartments d))
               (showFilter d)
  | Cancel => mkDialog (selectedDepartments d) (pendingDepartments d) false
  | Apply => mkDialog (pendingDepartments d) (pendingDepartments d) false
  end.

(** A click on the box of [dept]: the box shows
    [pendingDepartments.includes(dept)], the click sends the opposite. *)
Definition click (dept : string) (d : FilterDialog) : FilterDialog :=
  dialog_step d (Check dept (negb (bool_decide (dept ∈ pendingDepartments d)))).

End DirectoryUI.

(** * HRAttendanceTracker.tsx: what is displayed *)
Module TrackerView.

(** An [AttendanceRecord] with its [department?]; [base] holds [id],
    [employee_id] and [name]. *)
Record AttendanceRecord := mkRecord {
  base : Row;
  department : option string
}.

(** [kpiTotals], as far as it is read below. *)
Record KpiTotals := mkKpi {
  total_employees : nat
}.

Section display.
Variable toLowerCase : string -> string.
Variable white : Ascii.ascii -> bool.

(** [normalizeDepartment], line 478. *)
Definition normalizeDepartment (dept : option string) : string :=
  normalizeDepartmentOr "N/A" white dept.

(** The test of [filteredBySearch], lines 487-504. *)
Definition recordShown (searchQuery selectedDepartment : string)
    (record : AttendanceRecord) : bool :=
  if truthy_str searchQuery
     && negb (let query := toLowerCase searchQuery in
              includes (toLowerCase (name (base record))) query
              || includes (toLowerCase (employee_id (base record))) query)
  then false
  else if truthy_str selectedDepartment
          && negb (String.eqb selectedDepartment "all")
          && negb (String.eqb (normalizeDepartment (department record))
                              selectedDepartment)
  then false
  else true.

Definition filteredBySearch (searchQuery selectedDepartment : string)
    (attendanceData : list AttendanceRecord) : list AttendanceRecord :=
  List.filter (recordShown searchQuery selectedDepartment) attendanceData.

(** Line 546. *)
Definition isFiltered (searchQuery selectedDepartment : string) : bool :=
  negb (String.eqb searchQuery "") || negb (String.eqb selectedDepartment "all").

(** Lines 548-550; [finalData] has one entry for each entry of
    [filteredBySearch]. *)
Definition totalEmployees (kpiTotals : option KpiTotals)
    (searchQuery selectedDepartment : string)
    (attendanceData : list AttendanceRecord) : nat :=
  match kpiTotals with
  | Some k =>
      if negb (isFiltered searchQuery selectedDepartment)
      then total_employees k
      else length (filteredBySearch searchQuery selectedDepartment attendanceData)
  | None => length (filteredBySearch searchQuery selectedDepartment attendanceData)
  end.

End display.

End TrackerView.

(** * Tactics *)

(** From [H : x = y], prove [f x = v] by computing [f y]. *)
Ltac by_image H f :=
  etrans; [exact (f_equal f H) | vm_compute; reflexivity].

(** * The mappings

    Both mappings are maps over the list that keep [id] and [employee_id]. *)

Section mappings.
Context {ops : StringOps}.
Import Tracker.

Lemma transform_length (l : list Row) :
  length (transformStandardToAttendanceRecords l) = length l.
Proof. apply length_fmap. Qed.

Lemma transform_id (l : list Row) :
  id <$> transformStandardToAttendanceRecords l = id <$> l.
Proof.
  unfold transformStandardToAttendanceRecords. rewrite <- list_fmap_compose.
  by apply list_fmap_ext.
Qed.

Lemma transform_employee_id (l : list Row) :
  employee_id <$> transformStandardToAttendanceRecords l = employee_id <$> l.
Proof.
  unfold transformStandardToAttendanceRecords. rewrite <- list_fmap_compose.
  by apply list_fmap_ext.
Qed.


Lemma transform_take (n : nat) (l : list Row) :
  transformStandardToAttendanceRecords (take n l)
  = take n (transformStandardToAttendanceRecords l).
Proof. apply fmap_take. Qed.

Lemma transform_drop (n : nat) (l : list Row) :
  transformStandardToAttendanceRecords (drop n l)
  = drop n (transformStandardToAttendanceRecords l).
Proof. apply fmap_drop. Qed.

Lemma transform_nil (l : list Row) :
  transformStandardToAttendanceRecords l = [] <-> l = [].
Proof. split; [apply fmap_nil_inv | by intros ->]. Qed.

End mappings.

Lemma processedData_length (l : list Row) :
  length (Directory.processedData l) = length l.
Proof. apply length_fmap. Qed.

Lemma processedData_id (l : list Row) :
  id <$> Directory.processedData l = id <$> l.
Proof.
  unfold Directory.processedData. rewrite <- list_fmap_compose.
  by apply list_fmap_ext.
Qed.

Lemma processedData_employee_id (l : list Row) :
  employee_id <$> Directory.processedData l = employee_id <$> l.
Proof.
  unfold Directory.processedData. rewrite <- list_fmap_compose.
  by apply list_fmap_ext.
Qed.

Lemma processedData_app (l k : list Row) :
  Directory.processedData (l ++ k)
  = Directory.processedData l ++ Directory.processedData k.
Proof. apply fmap_app. Qed.



Lemma processedData_no_collision (l : list Row) :
  no_collision (Directory.processedData l) <-> no_collision l.
Proof.
  unfold no_collision. by rewrite processedData_id, processedData_employee_id.
Qed.

(** * Tests on concrete sessions *)

(** The two mappings on names. *)
Example cleanEmployeeName_examples :
  Tracker.cleanEmployeeName (ops:=ascii_ops)
  <$> ["nan Kumar"; "Ravi  nan   Kumar "; "nan"; "banana"; "Nandini"; "Unknown"]
  = ["Kumar"; "Ravi Kumar"; "Unknown"; "banana"; "Nandini"; "Unknown"].
Proof. reflexivity. Qed.

Example mapping_examples :
  let page := [mkRow 1 "E1" ""; mkRow 2 "E2" "0"; mkRow 3 "E3" "nan Kumar"] in
  Tracker.transformStandardToAttendanceRecords (ops:=ascii_ops) page
  = [mkRow 1 "E1" "Unknown"; mkRow 2 "E2" "0"; mkRow 3 "E3" "Kumar"]
  /\ Directory.processedData page
     = [mkRow 1 "E1" "-"; mkRow 2 "E2" "-"; mkRow 3 "E3" "nan Kumar"].
Proof. split; reflexivity. Qed.

Example tracker_75 :
  let '(s, tr) := Tracker.session (ops:=ascii_ops) 10
                    (paged_server (sample_db 1 75) (fun _ => false))
                    (Tracker.initial_state filter_12) in
  offset_limit tr = [(0, 30); (30, 30); (60, 30)]
  /\ length (Tracker.attendanceData s) = 75 /\ Tracker.hasMore s = false.
Proof. vm_compute. done. Qed.

Example directory_75 :
  let '(s, tr) := Directory.session (paged_server (sample_db 1 75) (fun _ => false))
                    Directory.initial_state in
  offset_limit tr = [(0, 30); (30, 30); (60, 30)]
  /\ length (Directory.employees s) = 75 /\ Directory.hasMore s = false.
Proof. vm_compute. done. Qed.

(** * Record identity and the directory's merge *)

(** [no_collision] says what its name says: no two places of the list hold
    colliding records. *)
Lemma no_collision_pairwise (l : list Row) :
  no_collision l <->
  (forall i j a b, i <> j -> l !! i = Some a -> l !! j = Some b -> ~ collide a b).
Proof.
  unfold no_collision, collide. rewrite !NoDup_alt. split.
  - intros [Hid Hemp] i j a b Hij Ha Hb [E | E]; apply Hij.
    + apply (Hid i j (id a)); rewrite list_lookup_fmap; [by rewrite Ha | by rewrite Hb, E].
    + apply (Hemp i j (employee_id a)); rewrite list_lookup_fmap;
        [by rewrite Ha | by rewrite Hb, E].
  - intros H. split; intros i j x; rewrite !list_lookup_fmap;
      destruct (l !! i) as [a|] eqn:Ha; destruct (l !! j) as [b|] eqn:Hb;
      simpl; try done; intros [= <-] [= E];
      destruct (decide (i = j)) as [|Hne]; try done;
      exfalso; apply (H i j a b Hne Ha Hb); [left | right]; done.
Qed.

Lemma elem_of_newEmployees (prev batch : list Row) (e : Row) :
  e ∈ Directory.newEmployees prev batch <->
  e ∈ batch /\ (id e ∉ id <$> prev) /\ (employee_id e ∉ employee_id <$> prev).
Proof.
  unfold Directory.newEmployees. rewrite list_elem_of_filter.
  rewrite !elem_of_list_to_set. tauto.
Qed.

Lemma newEmployees_sublist (prev batch : list Row) :
  Directory.newEmployees prev batch `sublist_of` batch.
Proof. apply sublist_filter. Qed.


Lemma mergeEmployees_no_collision (prev batch : list Row) :
  no_collision prev -> no_collision batch ->
  no_collision (prev ++ Directory.newEmployees prev batch).
Proof.
  intros [Hp1 Hp2] [Hb1 Hb2]. unfold no_collision. rewrite !fmap_app, !NoDup_app.
  pose proof (newEmployees_sublist prev batch) as Hsub.
  repeat split; try done.
  - intros x Hx Hx'. apply list_elem_of_fmap in Hx' as (e & -> & He).
    apply elem_of_newEmployees in He. tauto.
  - eapply sublist_NoDup; [done | by apply fmap_sublist].
  - intros x Hx Hx'. apply list_elem_of_fmap in Hx' as (e & -> & He).
    apply elem_of_newEmployees in He. tauto.
  - eapply sublist_NoDup; [done | by apply fmap_sublist].
Qed.

(** * Invariants of the accumulated list in the directory *)

Section directory_invariant.
Import Directory.
Variable server : Server.
Variable I : list Row -> Prop.
Hypothesis I_merge : forall prev rq r,
  I prev -> server rq = Some r ->
  I (prev ++ newEmployees prev (processedData (results r))).

Lemma fetchAllRemainingAtOnce_inv delay startOffset remainingCount s :
  I (employees s) ->
  I (employees (fst (fetchAllRemainingAtOnce delay server startOffset remainingCount s))).
Proof.
  intros Hs. unfold fetchAllRemainingAtOnce.
  destruct (server _) as [r|] eqn:Hr; simpl; eauto.
Qed.

Lemma fetchRemainingEmployees_loop_inv fuel startOffset total currentOffset s :
  I (employees s) ->
  I (employees (fst (fetchRemainingEmployees_loop fuel server startOffset total
                       currentOffset s))).
Proof.
  revert currentOffset s.
  induction fuel as [|fuel IH]; intros currentOffset s Hs; simpl; [done|].
  destruct (currentOffset <? total); [|done].
  destruct (server _) as [r|] eqn:Hr; [|done].
  destruct (cached r && (currentOffset =? startOffset)).
  - destruct (0 <? total - (currentOffset + BATCH_SIZE)); simpl; [|by eauto].
    pose proof (fetchAllRemainingAtOnce_inv 50 (currentOffset + BATCH_SIZE)
                  (total - (currentOffset + BATCH_SIZE))
                  (mergeEmployees (processedData (results r)) s)) as H.
    destruct (fetchAllRemainingAtOnce _ _ _ _ _) as [s2 tr]. simpl in *.
    apply H. eauto.
  - destruct (length (results r) =? 0); [done|].
    specialize (IH (currentOffset + BATCH_SIZE)
                  (mergeEmployees (processedData (results r)) s)).
    destruct (fetchRemainingEmployees_loop _ _ _ _ _ _) as [s2 tr]. simpl in *.
    apply IH. eauto.
Qed.

(** A session that starts from a list in [I] and whose first page, mapped
    and taken alone, is in [I] ends with a list in [I]. *)
Lemma session_inv s0 :
  I (employees s0) ->
  (forall r, server (refreshEmployeeData_request false s0) = Some r ->
             I (processedData (results r))) ->
  I (employees (fst (session server s0))).
Proof.
  intros Hs0 Hfirst. unfold session.
  destruct (server _) as [r|] eqn:Hr; simpl; [|done].
  specialize (Hfirst r eq_refl).
  destruct (cached r && has_more r && (BATCH_SIZE <? total_count r)).
  - match goal with |- context [fetchAllRemainingAtOnce ?d _ ?a ?b ?s] =>
      pose proof (fetchAllRemainingAtOnce_inv d a b s) as H;
      destruct (fetchAllRemainingAtOnce d server a b s) as [s3 tr] end.
    simpl in *. by apply H.
  - destruct (has_more r && (BATCH_SIZE <? total_count r)); simpl; [|done].
    unfold fetchRemainingEmployees.
    match goal with |- context [fetchRemainingEmployees_loop ?f _ ?a ?b ?c ?s] =>
      pose proof (fetchRemainingEmployees_loop_inv f a b c s) as H;
      destruct (fetchRemainingEmployees_loop f server a b c s) as [s3 tr] end.
    simpl in *. by apply H.
Qed.
End directory_invariant.

(** * The fuel of the directory's loop

    With more than [total - currentOffset] rounds of fuel the loop ends by
    itself (its condition fails, it breaks or it returns): more fuel does
    not change the result.  [fetchRemainingEmployees] gives [S total]. *)
Lemma fetchRemainingEmployees_loop_fuel (server : Server) (startOffset total : nat) :
  forall fuel1 fuel2 currentOffset s,
    total - currentOffset < fuel1 -> total - currentOffset < fuel2 ->
    Directory.fetchRemainingEmployees_loop fuel1 server startOffset total currentOffset s
    = Directory.fetchRemainingEmployees_loop fuel2 server startOffset total currentOffset s.
Proof.
  induction fuel1 as [|fuel1 IH]; intros fuel2 currentOffset s H1 H2; [lia|].
  destruct fuel2 as [|fuel2]; [lia|].
  cbn [Directory.fetchRemainingEmployees_loop].
  destruct (currentOffset <? total) eqn:Hlt; [|done].
  apply Nat.ltb_lt in Hlt.
  destruct (server _) as [r|]; [|done].
  destruct (cached r && (currentOffset =? startOffset)); [done|].
  destruct (length (results r) =? 0); [done|].
  rewrite (IH fuel2) by (unfold BATCH_SIZE; lia). done.
Qed.

Lemma fetchRemainingEmployees_enough_fuel (server : Server) (startOffset total fuel : nat)
    (s : Directory.State) :
  total < fuel ->
  Directory.fetchRemainingEmployees_loop fuel server startOffset total startOffset s
  = Directory.fetchRemainingEmployees server startOffset total s.
Proof.
  intros H. unfold Directory.fetchRemainingEmployees.
  apply fetchRemainingEmployees_loop_fuel; lia.
Qed.

(** * C1: colliding identities in the accumulated list *)

(** The tracker's load-more branch appends the mapped page, all of it. *)
Lemma tracker_load_more_appends {ops : StringOps} (c s : Tracker.State)
    (r : ApiResponse) :
  results r <> [] ->
  Tracker.attendanceData (fst (Tracker.fetchAttendanceData_resolve true c (Some r) s))
  = Tracker.attendanceData c
    ++ Tracker.transformStandardToAttendanceRecords (results r).
Proof. intros H. simpl. by destruct (results r). Qed.

(** The directory checks a batch against the accumulated list, not against
    itself: two colliding records of one batch both pass. *)
Lemma newEmployees_keeps_collisions_within_batch :
  Directory.newEmployees [] [mkRow 7 "E7" "a"; mkRow 7 "E7" "b"]
  = [mkRow 7 "E7" "a"; mkRow 7 "E7" "b"].
Proof. by vm_compute. Qed.

(** C1, as stated, fails: in the attendance tracker a session against
    [shifted_backend] (first page, then one load-more batch) ends with 41
    accumulated records, two of which carry the numeric id 30 and the
    employee id E30 (the mapping has given the nameless records the name
    ['Unknown']). *)
Lemma C1_tracker_accumulates_colliding_records :
  let s := fst (Tracker.session (ops:=ascii_ops) 5 shifted_backend
                  (Tracker.initial_state Tracker.initial_filter)) in
  Tracker.attendanceData s !! 29 = Some (mkRow 30 "E30" "Unknown")
  /\ Tracker.attendanceData s !! 30 = Some (mkRow 30 "E30" "Unknown")
  /\ length (Tracker.attendanceData s) = 41
  /\ ~ no_collision (Tracker.attendanceData s).
Proof.
  vm_compute. repeat split.
  intros [H _]. by apply (bool_decide_pack _) in H.
Qed.

(** C1 (amended): in the employee directory every merge keeps only the
    records of the page whose numeric id and employee id are both absent
    from the accumulated list; hence, when no page collides within itself
    and the list the session starts from does not, the accumulated list at
    the end of the session (first page, trickle batches, bulk remainder)
    holds no two colliding records. *)
Theorem C1_directory_session_no_collision (server : Server) (s0 : Directory.State) :
  no_collision (Directory.employees s0) ->
  (forall rq r, server rq = Some r -> no_collision (results r)) ->
  let accumulated := Directory.employees (fst (Directory.session server s0)) in
  forall i j a b,
    i <> j -> accumulated !! i = Some a -> accumulated !! j = Some b ->
    id a <> id b /\ employee_id a <> employee_id b.
Proof.
  intros Hs0 Hpages accumulated.
  assert (H : no_collision accumulated).
  { apply (session_inv server no_collision); [|done|].
    - intros prev rq r Hprev Hr. apply mergeEmployees_no_collision; [done|].
      apply processedData_no_collision. eauto.
    - intros r Hr. apply processedData_no_collision. eauto. }
  intros i j a b Hij Ha Hb.
  pose proof (proj1 (no_collision_pairwise accumulated) H i j a b Hij Ha Hb) as Hc.
  unfold collide in Hc. tauto.
Qed.

Lemma C1_directory_session_no_collision_witness :
  let accumulated :=
    Directory.employees (fst (Directory.session shifted_backend Directory.initial_state)) in
  length accumulated = 40
  /\ forall i j a b,
       i <> j -> accumulated !! i = Some a -> accumulated !! j = Some b ->
       id a <> id b /\ employee_id a <> employee_id b.
Proof.
  split; [vm_compute; reflexivity|].
  apply C1_directory_session_no_collision.
  - apply (bool_decide_unpack _). vm_compute. reflexivity.
  - intros rq r. unfold shifted_backend. simpl.
    destruct (rq_offset rq =? 0);
      [intros [= <-]; apply (bool_decide_unpack _); vm_compute; reflexivity|].
    destruct (rq_offset rq =? 30);
      [intros [= <-]; apply (bool_decide_unpack _); vm_compute; reflexivity|].
    done.
Defined.

(** * C9: an empty page in the attendance tracker *)

(** C9: in the attendance tracker, whenever [fetchAttendanceData] (first
    page or load-more batch) gets a response without records, the error state
    is set to the "no data" message and the accumulated list is replaced by
    the empty list, whatever had been accumulated. *)
Theorem C9_tracker_empty_page_discards {ops : StringOps} (loadMore : bool)
    (c s : Tracker.State) (r : ApiResponse) :
  results r = [] ->
  let s' := fst (Tracker.fetchAttendanceData_resolve loadMore c (Some r) s) in
  Tracker.attendanceData s' = []
  /\ Tracker.error s' = Some (Tracker.noDataMessage (Tracker.filt c))
  /\ Tracker.error s' <> None.
Proof.
  intros Hr. unfold Tracker.fetchAttendanceData_resolve. rewrite Hr.
  destruct loadMore; simpl; done.
Qed.

(** A load-more batch of an ongoing session: 30 records are there, the next
    page is empty, nothing is left. *)
Lemma C9_tracker_empty_page_discards_witness :
  let c := Tracker.mkState Tracker.initial_filter
             (Tracker.transformStandardToAttendanceRecords (ops:=ascii_ops) (sample_db 1 30))
             false false None 75 true 30 in
  let s := Tracker.fetchAttendanceData_begin true c in
  let s' := fst (Tracker.fetchAttendanceData_resolve (ops:=ascii_ops) true c
                   (Some (mkResp [] 75 true false)) s) in
  length (Tracker.attendanceData s) = 30
  /\ Tracker.attendanceData s' = []
  /\ Tracker.error s' = Some "No attendance data available yet".
Proof.
  split; [reflexivity|].
  pose proof (C9_tracker_empty_page_discards (ops:=ascii_ops) true
    (Tracker.mkState Tracker.initial_filter
       (Tracker.transformStandardToAttendanceRecords (ops:=ascii_ops) (sample_db 1 30))
       false false None 75 true 30)
    (Tracker.fetchAttendanceData_begin true
       (Tracker.mkState Tracker.initial_filter
       (Tracker.transformStandardToAttendanceRecords (ops:=ascii_ops) (sample_db 1 30))
       false false None 75 true 30))
    (mkResp [] 75 true false) eq_refl) as (H1 & H2 & _).
  split; [exact H1 | exact H2].
Defined.

(** * C10: the [time_period] parameter of a ['custom_month'] session *)

Lemma custom_month_params (f : Tracker.Filter) :
  Tracker.filterType f = Tracker.custom_month ->
  truthy_str (Tracker.selectedMonth f) = true ->
  truthy_num (Tracker.selectedYear f) = true ->
  let month := pretty (Tracker.indexOf_succ (Tracker.selectedMonth f) Tracker.monthNames) in
  let year := pretty (Tracker.selectedYear f) in
  Tracker.fetchAttendanceData_params f
  = [("time_period", "custom"); ("month", month); ("year", year)]
  /\ Tracker.fetchRemainingRecords_params f
     = [("time_period", "custom_month"); ("month", month); ("year", year)].
Proof.
  intros Hf Hm Hy. unfold Tracker.fetchAttendanceData_params,
    Tracker.fetchRemainingRecords_params, Tracker.period_params.
  rewrite Hf, Hm, Hy. simpl. done.
Qed.

(** C10: in the attendance tracker, in a session whose filter is
    ['custom_month'] with a month and a year selected and whose first page
    triggers the bulk fetch, the first request carries
    [time_period=custom] and the bulk request of the same session carries
    [time_period=custom_month]; the [month] and [year] parameters are the
    same, so the two requests name different filter tuples. *)
Theorem C10_tracker_custom_month_time_period {ops : StringOps} (fuel : nat)
    (server : Server) (s0 : Tracker.State) (r : ApiResponse) :
  Tracker.filterType (Tracker.filt s0) = Tracker.custom_month ->
  truthy_str (Tracker.selectedMonth (Tracker.filt s0)) = true ->
  truthy_num (Tracker.selectedYear (Tracker.filt s0)) = true ->
  server (Tracker.fetchAttendanceData_request false s0) = Some r ->
  cached r = true -> has_more r = true -> BATCH_SIZE < total_count r ->
  exists first bulk rest,
    snd (Tracker.session fuel server s0) = first :: bulk :: rest
    /\ iss_kind first = FirstPage /\ iss_kind bulk = BulkRemainder
    /\ get_param "time_period" (rq_filter (iss_req first)) = Some "custom"
    /\ get_param "time_period" (rq_filter (iss_req bulk)) = Some "custom_month"
    /\ get_param "month" (rq_filter (iss_req first))
       = get_param "month" (rq_filter (iss_req bulk))
    /\ get_param "year" (rq_filter (iss_req first))
       = get_param "year" (rq_filter (iss_req bulk))
    /\ rq_filter (iss_req first) <> rq_filter (iss_req bulk).
Proof.
  intros Hf Hm Hy Hr Hc Hh Ht.
  destruct (custom_month_params _ Hf Hm Hy) as [E1 E2].
  unfold Tracker.session. rewrite Hr.
  unfold Tracker.fetchAttendanceData_resolve. rewrite Hc, Hh.
  apply Nat.ltb_lt in Ht. rewrite Ht. simpl.
  destruct (Tracker.autoLoad _ _ _) as [s5 tr]. simpl.
  eexists _, _, _. split; [reflexivity|]. simpl.
  rewrite E1, E2. simpl. repeat split; done.
Qed.

Lemma C10_tracker_custom_month_time_period_witness :
  exists first bulk rest,
    snd (Tracker.session (ops:=ascii_ops) 5
           (paged_server (sample_db 1 75) (fun _ => true))
           (Tracker.initial_state
              (Tracker.mkFilter Tracker.custom_month "MAR" 2025 "" "" "")))
    = first :: bulk :: rest
    /\ request_params (iss_req first)
       = [("time_period", "custom"); ("month", "3"); ("year", "2025");
          ("offset", "0"); ("limit", "30")]
    /\ request_params (iss_req bulk)
       = [("time_period", "custom_month"); ("month", "3"); ("year", "2025");
          ("offset", "30"); ("limit", "0")].
Proof.
  destruct (C10_tracker_custom_month_time_period (ops:=ascii_ops) 5
              (paged_server (sample_db 1 75) (fun _ => true))
              (Tracker.initial_state
                 (Tracker.mkFilter Tracker.custom_month "MAR" 2025 "" "" ""))
              (mkResp (sample_db 1 30) 75 true true)
              eq_refl eq_refl eq_refl eq_refl eq_refl eq_refl)
    as (first & bulk & rest & E & _).
  { unfold BATCH_SIZE. simpl. lia. }
  exists first, bulk, rest. split; [exact E|].
  vm_compute in E. injection E as <- <- _. by vm_compute.
Defined.

(** * C2: a later page fails *)

(** The catch block of [fetchAttendanceData] is the same for the first page
    and for a load-more batch. *)
Lemma tracker_load_more_failure {ops : StringOps} (c s : Tracker.State) :
  let s' := fst (Tracker.fetchAttendanceData_resolve true c None s) in
  Tracker.attendanceData s' = []
  /\ Tracker.error s' = Some "Failed to load attendance data"
  /\ Tracker.hasMore s' = Tracker.hasMore s
  /\ Tracker.autoLoadArmed s' = false.
Proof.
  simpl. repeat split. unfold Tracker.autoLoadArmed. simpl.
  by rewrite andb_false_r.
Qed.

(** After a failed bulk fetch that followed a first page with records, the
    auto-load effect is armed. *)
Lemma tracker_bulk_failure_rearms {ops : StringOps} (c s : Tracker.State)
    (r : ApiResponse) (tot : nat) :
  results r <> [] ->
  let s2 := fst (Tracker.fetchAttendanceData_resolve false c (Some r) s) in
  let s4 := Tracker.fetchRemainingRecords_resolve tot None
              (Tracker.fetchRemainingRecords_begin s2) in
  Tracker.attendanceData s4 = Tracker.transformStandardToAttendanceRecords (results r)
  /\ Tracker.offset s4 = BATCH_SIZE
  /\ Tracker.autoLoadArmed s4 = true.
Proof.
  intros Hr. unfold Tracker.autoLoadArmed. simpl.
  destruct (results r) as [|x l]; [done|]. by simpl.
Qed.

(** In the directory, a failed trickle batch ends the loop. *)
Lemma directory_trickle_failure (fuel : nat) (server : Server)
    (startOffset total currentOffset : nat) (s : Directory.State) :
  currentOffset < total ->
  server (Directory.batch_request currentOffset BATCH_SIZE) = None ->
  Directory.fetchRemainingEmployees_loop (S fuel) server startOffset total currentOffset s
  = (Directory.setHasMore false s,
     [mkIssued Trickle 500 (Directory.batch_request currentOffset BATCH_SIZE)
        (length (Directory.employees s))]).
Proof.
  intros Hlt Hfail. simpl. apply Nat.ltb_lt in Hlt. by rewrite Hlt, Hfail.
Qed.

(** What the shared catch block does to a session of the tracker: against
    [third_batch_fails], 60 records are accumulated when the request at
    offset 60 leaves; when it fails the accumulated list is empty. *)
Lemma tracker_later_failure_discards :
  let ops := ascii_ops in
  let s0 := Tracker.initial_state Tracker.initial_filter in
  length (Tracker.attendanceData (fst (Tracker.session 1 third_batch_fails s0))) = 60
  /\ offset_limit (snd (Tracker.session 5 third_batch_fails s0))
     = [(0, 30); (30, 30); (60, 30)]
  /\ Tracker.attendanceData (fst (Tracker.session 5 third_batch_fails s0)) = []
  /\ Tracker.hasMore (fst (Tracker.session 5 third_batch_fails s0)) = true.
Proof. by vm_compute. Qed.

(** C2, as stated, fails: in the attendance tracker, against [bulk_fails],
    the bulk request (offset 30, limit 0) fails and, with no retry from
    outside, the auto-load effect sends four more requests, which bring the
    100 records left. *)
Lemma C2_tracker_bulk_failure_falls_back :
  let s0 := Tracker.initial_state Tracker.initial_filter in
  let out := Tracker.session (ops:=ascii_ops) 10 bulk_fails s0 in
  bulk_fails (Tracker.fetchRemainingRecords_request BATCH_SIZE s0) = None
  /\ offset_limit (snd out)
     = [(0, 30); (30, 0); (30, 30); (60, 30); (90, 30); (120, 30)]
  /\ iss_kind <$> snd out
     = [FirstPage; BulkRemainder; Trickle; Trickle; Trickle; Trickle]
  /\ length (Tracker.attendanceData (fst out)) = 130.
Proof. by vm_compute. Qed.

(** C2 (amended): when a bulk-remainder fetch fails, in either component, or
    a trickle batch fails in the employee directory, the accumulated records
    stay as they are.  After a failed bulk fetch [hasMore] is true; the
    directory sends nothing further, and the attendance tracker falls back
    to progressive loading: the auto-load effect sends the next 30-record
    batch at offset 30 (the first page having brought records).  After a
    failed load-more batch of the attendance tracker [hasMore] keeps its
    value and the auto-load effect is not armed. *)
Theorem C2_later_failure {ops : StringOps} :
  (* tracker, bulk fetch *)
  (forall tot s,
     let s' := Tracker.fetchRemainingRecords_resolve tot None s in
     Tracker.attendanceData s' = Tracker.attendanceData s
     /\ Tracker.hasMore s' = true)
  /\ (forall fuel server s0 r,
        server (Tracker.fetchAttendanceData_request false s0) = Some r ->
        cached r = true -> has_more r = true -> BATCH_SIZE < total_count r ->
        results r <> [] ->
        server (Tracker.fetchRemainingRecords_request BATCH_SIZE s0) = None ->
        exists first bulk next rest,
          snd (Tracker.session (S fuel) server s0) = first :: bulk :: next :: rest
          /\ iss_kind bulk = BulkRemainder
          /\ iss_kind next = Trickle
          /\ rq_offset (iss_req next) = BATCH_SIZE
          /\ rq_limit (iss_req next) = BATCH_SIZE)
  (* directory, bulk fetch *)
  /\ (forall delay server startOffset remainingCount s,
        server (Directory.batch_request startOffset remainingCount) = None ->
        Directory.fetchAllRemainingAtOnce delay server startOffset remainingCount s
        = (s, [mkIssued BulkRemainder delay
                 (Directory.batch_request startOffset remainingCount)
                 (length (Directory.employees s))]))
  /\ (forall server s0 r,
        server (Directory.refreshEmployeeData_request false s0) = Some r ->
        cached r = true -> has_more r = true -> BATCH_SIZE < total_count r ->
        server (Directory.batch_request BATCH_SIZE (total_count r - BATCH_SIZE)) = None ->
        let out := Directory.session server s0 in
        Directory.employees (fst out) = Directory.processedData (results r)
        /\ Directory.hasMore (fst out) = true
        /\ length (snd out) = 2)
  (* directory, trickle batch *)
  /\ (forall fuel server startOffset total currentOffset s,
        currentOffset < total ->
        server (Directory.batch_request currentOffset BATCH_SIZE) = None ->
        let out := Directory.fetchRemainingEmployees_loop (S fuel) server
                     startOffset total currentOffset s in
        Directory.employees (fst out) = Directory.employees s
        /\ length (snd out) = 1)
  (* tracker, load-more batch *)
  /\ (forall c s,
        let s' := fst (Tracker.fetchAttendanceData_resolve true c None s) in
        Tracker.hasMore s' = Tracker.hasMore s
        /\ Tracker.autoLoadArmed s' = false).
Proof.
  split; [by intros|]. split; [|split; [|split; [|split]]].
  - intros fuel server s0 r Hr Hc Hh Ht Hne Hfail.
    unfold Tracker.session. rewrite Hr.
    unfold Tracker.fetchAttendanceData_resolve. rewrite Hc, Hh.
    apply Nat.ltb_lt in Ht. rewrite Ht. cbn [andb].
    rewrite Hfail. destruct (results r) as [|x l]; [done|].
    cbn. destruct (Tracker.autoLoad fuel _ _) as [s5 tr].
    eexists _, _, _, _. split; [reflexivity|]. done.
  - intros delay server a b s Hfail. unfold Directory.fetchAllRemainingAtOnce.
    by rewrite Hfail.
  - intros server s0 r Hr Hc Hh Ht Hfail. unfold Directory.session. rewrite Hr.
    unfold Directory.refreshEmployeeData_resolve. rewrite Hc, Hh.
    apply Nat.ltb_lt in Ht. rewrite Ht. cbn [andb].
    unfold Directory.fetchAllRemainingAtOnce. by rewrite Hfail.
  - intros fuel server a total cur s Hlt Hfail.
    rewrite (directory_trickle_failure fuel server a total cur s Hlt Hfail). done.
  - intros c s. by destruct (tracker_load_more_failure c s) as (_ & _ & ? & ?).
Qed.

Lemma C2_later_failure_witness :
  let s0 := Tracker.initial_state Tracker.initial_filter in
  (exists first bulk next rest,
     snd (Tracker.session (ops:=ascii_ops) 1 bulk_fails s0)
     = first :: bulk :: next :: rest
     /\ iss_kind bulk = BulkRemainder /\ iss_kind next = Trickle
     /\ rq_offset (iss_req next) = BATCH_SIZE /\ rq_limit (iss_req next) = BATCH_SIZE)
  /\ (let out := Directory.fetchRemainingEmployees_loop 131 third_batch_fails 30 130 60
                   (Directory.mkState (Directory.processedData (sample_db 1 60))
                      false false None 130 true 30) in
      Directory.employees (fst out) = Directory.processedData (sample_db 1 60)
      /\ length (snd out) = 1)
  /\ fst (Directory.fetchAllRemainingAtOnce 100 bulk_fails 30 100
            (Directory.mkState (Directory.processedData (sample_db 1 30))
               false false None 130 true 30))
     = Directory.mkState (Directory.processedData (sample_db 1 30))
         false false None 130 true 30.
Proof.
  destruct (C2_later_failure (ops:=ascii_ops)) as (_ & Hbulk & Hdbulk & _ & Htrickle & _).
  split; [|split].
  - apply (Hbulk 0 bulk_fails (Tracker.initial_state Tracker.initial_filter)
             (mkResp (sample_db 1 30) 130 true true));
      try reflexivity; [unfold BATCH_SIZE; simpl; lia | done].
  - apply (Htrickle 130 third_batch_fails 30 130 60); [lia | reflexivity].
  - rewrite (Hdbulk 100 bulk_fails 30 100); reflexivity.
Defined.

(** * C3: responses of a superseded session *)

Lemma filterEffectFetches_same (f : Tracker.Filter) :
  Tracker.filterEffectFetches f f = false.
Proof.
  unfold Tracker.filterEffectFetches.
  rewrite !bool_decide_eq_false_2 by (intros H; by apply H).
  by destruct (Tracker.filterType f).
Qed.

(** The auto-select effect leaves a filter alone whose effects fetch. *)
Lemma autoSelectCurrentMonth_fetching (nowMonth nowYear : nat) (prev f : Tracker.Filter) :
  Tracker.filterEffectFetches prev f = true ->
  Tracker.autoSelectCurrentMonth nowMonth nowYear prev f = f.
Proof.
  unfold Tracker.filterEffectFetches, Tracker.autoSelectCurrentMonth.
  destruct (Tracker.filterType f) eqn:Ht; intros H;
    try (rewrite (bool_decide_eq_false_2 (_ = Tracker.custom_month)) by done;
         by rewrite andb_false_r).
  apply andb_prop in H as [H Hy]. apply andb_prop in H as [_ Hm].
  by rewrite Hm, Hy, andb_false_r.
Qed.


(** The response to a first-page request replaces the accumulated list,
    whatever the state on arrival. *)
Lemma tracker_arrive_first_page {ops : StringOps} (w : Tracker.World) (i : nat)
    (p : Tracker.Pending) (r : ApiResponse) :
  Tracker.pending w !! i = Some p -> Tracker.pd_kind p = FirstPage ->
  results r <> [] ->
  let w' := Tracker.step w (Tracker.Arrive i (Some r)) in
  Tracker.attendanceData (Tracker.now w')
  = Tracker.transformStandardToAttendanceRecords (results r)
  /\ Tracker.filt (Tracker.now w') = Tracker.filt (Tracker.now w).
Proof.
  intros Hp Hk Hne. cbn [Tracker.step]. rewrite Hp, Hk.
  unfold Tracker.fetchAttendanceData_resolve.
  destruct (results r) as [|x l]; [done|].
  destruct (cached r && has_more r && (BATCH_SIZE <? total_count r)); simpl; done.
Qed.

(** What choosing a filter type does, when the dropdown is shown: either the
    effects of the render with the new type fetch, or the auto-select effect
    may select the current month and the effects of the render that follows
    may fetch. *)
Lemma step_SetFilterType {ops : StringOps} (w : Tracker.World) (t : Tracker.FilterType)
    (nowMonth nowYear : nat) :
  Tracker.loading (Tracker.now w) = false ->
  let prev := Tracker.filt (Tracker.now w) in
  let f := Tracker.setFilterType t prev in
  let f' := Tracker.autoSelectCurrentMonth nowMonth nowYear prev f in
  Tracker.step w (Tracker.SetFilterType t nowMonth nowYear)
  = if Tracker.filterEffectFetches prev f
    then Tracker.withFilter f (Tracker.fetchAttendanceData_call (Tracker.withFilter f w))
    else if Tracker.filterEffectFetches f f'
         then Tracker.fetchAttendanceData_call (Tracker.withFilter f' (Tracker.withFilter f w))
         else Tracker.withFilter f' (Tracker.withFilter f w).
Proof.
  intros Hl. cbv zeta. cbn [Tracker.step]. rewrite Hl.
  set (prev := Tracker.filt (Tracker.now w)).
  set (f := Tracker.setFilterType t prev).
  unfold Tracker.fetchEffects.
  change (Tracker.filt (Tracker.now (Tracker.withFilter f w))) with f.
  destruct (Tracker.filterEffectFetches prev f) eqn:Hfetch.
  - rewrite (autoSelectCurrentMonth_fetching _ _ _ _ Hfetch).
    change (Tracker.filt (Tracker.now (Tracker.withFilter f
              (Tracker.fetchAttendanceData_call (Tracker.withFilter f w))))) with f.
    by rewrite filterEffectFetches_same.
  - done.
Qed.




(** * Sessions against a paged backend *)





(** * The directory against a paged backend *)




(** * C5: trickle loading *)




(** * C4: the first page is a cache hit *)

Lemma tracker_session_bulk {ops : StringOps} (fuel : nat) (server : Server)
    (s0 : Tracker.State) (r rb : ApiResponse) :
  server (Tracker.fetchAttendanceData_request false s0) = Some r ->
  cached r = true -> has_more r = true -> BATCH_SIZE < total_count r ->
  server (Tracker.fetchRemainingRecords_request BATCH_SIZE s0) = Some rb ->
  exists s',
    Tracker.session fuel server s0
    = (s', [mkIssued FirstPage 0 (Tracker.fetchAttendanceData_request false s0) 0;
            mkIssued BulkRemainder 100
              (Tracker.fetchRemainingRecords_request BATCH_SIZE s0)
              (length (results r))])
    /\ Tracker.hasMore s' = false
    /\ Tracker.attendanceData s'
       = Tracker.transformStandardToAttendanceRecords (results r)
         ++ Tracker.transformStandardToAttendanceRecords (results rb).
Proof.
  intros Hr Hc Hh Ht Hrb. unfold Tracker.session. rewrite Hr.
  unfold Tracker.fetchAttendanceData_resolve. rewrite Hc, Hh.
  apply Nat.ltb_lt in Ht. rewrite Ht. cbn [andb]. rewrite Hrb.
  set (page := Tracker.transformStandardToAttendanceRecords (results r)).
  assert (Hlen : length page = length (results r)) by apply transform_length.
  set (s4 := Tracker.fetchRemainingRecords_resolve _ _ _).
  assert (Hs4 : Tracker.autoLoadArmed s4 = false) by done.
  assert (Hout : Tracker.autoLoad fuel server s4 = (s4, []))
    by (destruct fuel; cbn [Tracker.autoLoad]; [done | by rewrite Hs4]).
  rewrite Hout. exists s4. subst s4.
  destruct (length page =? 0) eqn:E; cbn; rewrite ?Hlen; [|done].
  apply Nat.eqb_eq in E.
  assert (E1 : page = []) by (by apply nil_length_inv).
  assert (E2 : results r = []) by (apply nil_length_inv; lia).
  by rewrite E1, E2.
Qed.

Lemma directory_session_bulk (server : Server) (s0 : Directory.State) (r : ApiResponse) :
  server (Directory.refreshEmployeeData_request false s0) = Some r ->
  cached r = true -> has_more r = true -> BATCH_SIZE < total_count r ->
  snd (Directory.session server s0)
  = [mkIssued FirstPage 0 (Directory.batch_request 0 BATCH_SIZE) 0;
     mkIssued BulkRemainder 100
       (Directory.batch_request BATCH_SIZE (total_count r - BATCH_SIZE))
       (length (results r))].
Proof.
  intros Hr Hc Hh Ht. unfold Directory.session. rewrite Hr.
  unfold Directory.refreshEmployeeData_resolve. rewrite Hc, Hh.
  apply Nat.ltb_lt in Ht. rewrite Ht. cbn [andb].
  unfold Directory.fetchAllRemainingAtOnce.
  destruct (server (Directory.batch_request _ _));
    cbn -[Directory.processedData]; by rewrite processedData_length.
Qed.

(** C4, as stated, fails.  In the employee directory, against [all_cached]
    (130 records), the second request has limit 100, the number of records
    left, and not the all-remaining value of the limit (0).  In the
    attendance tracker, against [bulk_fails], the bulk request is not the
    only further request: four load-more requests follow it. *)
Lemma C4_bulk_limit_and_fallback :
  offset_limit (snd (Directory.session all_cached Directory.initial_state))
  = [(0, 30); (30, 100)]
  /\ offset_limit (snd (Tracker.session (ops:=ascii_ops) 10 bulk_fails
                          (Tracker.initial_state Tracker.initial_filter)))
     = [(0, 30); (30, 0); (30, 30); (60, 30); (90, 30); (120, 30)].
Proof. by vm_compute. Qed.

(** C4 (amended): when the first page reports a cache hit and [has_more]
    with [total_count > 30], the attendance tracker sends one bulk request at
    offset 30 with limit 0 (all the remaining records), 100 ms after the
    first page, and, when that request succeeds, nothing else: two requests
    in all, after which [hasMore] is false.  The employee directory sends
    exactly one further request, at offset 30, whose limit is the number of
    records left, [total_count - 30]: two requests in all. *)
Theorem C4_cache_hit_on_first_page {ops : StringOps} :
  (forall fuel server s0 r rb,
     server (Tracker.fetchAttendanceData_request false s0) = Some r ->
     cached r = true -> has_more r = true -> BATCH_SIZE < total_count r ->
     server (Tracker.fetchRemainingRecords_request BATCH_SIZE s0) = Some rb ->
     let out := Tracker.session fuel server s0 in
     offset_limit (snd out) = [(0, BATCH_SIZE); (BATCH_SIZE, 0)]
     /\ iss_kind <$> snd out = [FirstPage; BulkRemainder]
     /\ iss_delay <$> snd out = [0; 100]
     /\ Tracker.hasMore (fst out) = false
     /\ Tracker.attendanceData (fst out)
        = Tracker.transformStandardToAttendanceRecords (results r)
          ++ Tracker.transformStandardToAttendanceRecords (results rb))
  /\ (forall server s0 r,
        server (Directory.refreshEmployeeData_request false s0) = Some r ->
        cached r = true -> has_more r = true -> BATCH_SIZE < total_count r ->
        let out := Directory.session server s0 in
        offset_limit (snd out)
        = [(0, BATCH_SIZE); (BATCH_SIZE, total_count r - BATCH_SIZE)]
        /\ iss_kind <$> snd out = [FirstPage; BulkRemainder]
        /\ iss_delay <$> snd out = [0; 100]).
Proof.
  split.
  - intros fuel server s0 r rb Hr Hc Hh Ht Hrb.
    destruct (tracker_session_bulk fuel server s0 r rb Hr Hc Hh Ht Hrb)
      as (s' & E & E1 & E2).
    cbv zeta. rewrite E. done.
  - intros server s0 r Hr Hc Hh Ht. cbv zeta.
    rewrite (directory_session_bulk server s0 r Hr Hc Hh Ht). done.
Qed.

Lemma C4_cache_hit_on_first_page_witness :
  (let out := Tracker.session (ops:=ascii_ops) 10 all_cached
                (Tracker.initial_state filter_12) in
   offset_limit (snd out) = [(0, 30); (30, 0)]
   /\ length (Tracker.attendanceData (fst out)) = 130)
  /\ (let out := Directory.session all_cached Directory.initial_state in
      offset_limit (snd out) = [(0, 30); (30, 100)]).
Proof.
  destruct (C4_cache_hit_on_first_page (ops:=ascii_ops)) as [HT HD]. split.
  - specialize (HT 10 all_cached (Tracker.initial_state filter_12)
                  (mkResp (sample_db 1 30) 130 true true)
                  (mkResp (sample_db 31 100) 130 false true)
                  eq_refl eq_refl eq_refl).
    destruct HT as (E1 & _ & _ & _ & E2);
      [unfold BATCH_SIZE; simpl; lia | reflexivity |].
    cbv zeta. split; [exact E1|].
    by_image E2 (length (A:=Row)).
  - specialize (HD all_cached Directory.initial_state
                  (mkResp (sample_db 1 30) 130 true true)
                  eq_refl eq_refl eq_refl).
    destruct HD as (E1 & _); [unfold BATCH_SIZE; simpl; lia|].
    exact E1.
Defined.

(** * C6: a cache hit on a later batch *)

Lemma bulk_is_last_nil : bulk_is_last [].
Proof. intros i e H. by rewrite lookup_nil in H. Qed.

Lemma bulk_is_last_singleton (e : Issued) : bulk_is_last [e].
Proof. intros [|i] e' H _; [done|]. by rewrite lookup_cons, lookup_nil in H. Qed.

Lemma bulk_is_last_cons (e : Issued) (tr : list Issued) :
  iss_kind e <> BulkRemainder -> bulk_is_last tr -> bulk_is_last (e :: tr).
Proof.
  intros He Htr [|i] e' H Hk; simpl in *.
  - by injection H as <-.
  - f_equal. by eapply Htr.
Qed.

Lemma fetchAllRemainingAtOnce_trace (delay : nat) (server : Server)
    (startOffset remainingCount : nat) (s : Directory.State) :
  snd (Directory.fetchAllRemainingAtOnce delay server startOffset remainingCount s)
  = [mkIssued BulkRemainder delay
       (Directory.batch_request startOffset remainingCount)
       (length (Directory.employees s))].
Proof. unfold Directory.fetchAllRemainingAtOnce. by destruct (server _). Qed.

Lemma directory_loop_bulk_is_last (fuel : nat) (server : Server)
    (startOffset total : nat) :
  forall currentOffset s,
    bulk_is_last (snd (Directory.fetchRemainingEmployees_loop fuel server
                         startOffset total currentOffset s)).
Proof.
  induction fuel as [|fuel IH]; intros currentOffset s; simpl;
    [apply bulk_is_last_nil|].
  destruct (currentOffset <? total); [|apply bulk_is_last_nil].
  destruct (server _) as [r|]; [|apply bulk_is_last_singleton].
  destruct (cached r && (currentOffset =? startOffset)).
  - destruct (0 <? total - (currentOffset + BATCH_SIZE));
      [|apply bulk_is_last_singleton].
    pose proof (fetchAllRemainingAtOnce_trace 50 server (currentOffset + BATCH_SIZE)
                  (total - (currentOffset + BATCH_SIZE))
                  (Directory.mergeEmployees (Directory.processedData (results r)) s)) as H.
    destruct (Directory.fetchAllRemainingAtOnce _ _ _ _ _) as [s2 tr].
    simpl in *. subst tr. apply bulk_is_last_cons; [done|].
    apply bulk_is_last_singleton.
  - destruct (length (results r) =? 0); [apply bulk_is_last_singleton|].
    specialize (IH (currentOffset + BATCH_SIZE)
                  (Directory.mergeEmployees (Directory.processedData (results r)) s)).
    destruct (Directory.fetchRemainingEmployees_loop _ _ _ _ _ _) as [s2 tr].
    simpl in *. by apply bulk_is_last_cons.
Qed.

Lemma directory_session_bulk_is_last (server : Server) (s0 : Directory.State) :
  bulk_is_last (snd (Directory.session server s0)).
Proof.
  unfold Directory.session.
  destruct (Directory.refreshEmployeeData_resolve _ _ _ _) as [s2 [[a b|a b]|]].
  - pose proof (fetchAllRemainingAtOnce_trace 100 server a b s2) as H.
    destruct (Directory.fetchAllRemainingAtOnce _ _ _ _ _) as [s3 tr].
    simpl in *. subst tr. apply bulk_is_last_cons; [done|].
    apply bulk_is_last_singleton.
  - pose proof (directory_loop_bulk_is_last (S b) server a b a s2) as H.
    unfold Directory.fetchRemainingEmployees.
    destruct (Directory.fetchRemainingEmployees_loop _ _ _ _ _ _) as [s3 tr].
    simpl in *. by apply bulk_is_last_cons.
  - apply bulk_is_last_singleton.
Qed.

(** The loop reads the cache flag of the batch at the start offset only. *)
Lemma directory_loop_mask (fuel : nat) (server : Server) (startOffset total : nat) :
  forall currentOffset s,
    Directory.fetchRemainingEmployees_loop fuel
      (mask_cached (fun rq => rq_offset rq =? startOffset) server)
      startOffset total currentOffset s
    = Directory.fetchRemainingEmployees_loop fuel server
        startOffset total currentOffset s.
Proof.
  induction fuel as [|fuel IH]; intros currentOffset s; simpl; [done|].
  destruct (currentOffset <? total); [|done].
  unfold mask_cached at 1. simpl.
  destruct (server (Directory.batch_request currentOffset BATCH_SIZE)) as [r|];
    [|done]. simpl.
  replace ((currentOffset =? startOffset) && cached r && (currentOffset =? startOffset))
    with (cached r && (currentOffset =? startOffset))
    by (destruct (cached r), (currentOffset =? startOffset); done).
  destruct (cached r && (currentOffset =? startOffset)).
  - destruct (0 <? total - (currentOffset + BATCH_SIZE)); [|done].
    unfold Directory.fetchAllRemainingAtOnce, mask_cached.
    by destruct (server (Directory.batch_request (currentOffset + BATCH_SIZE) _)).
  - destruct (length (results r) =? 0); [done|]. by rewrite IH.
Qed.

(** A load-more batch of the tracker does not read the cache flag. *)
Lemma tracker_load_more_mask {ops : StringOps} (keep : Request -> bool) (server : Server)
    (rq : Request) (c s : Tracker.State) :
  Tracker.fetchAttendanceData_resolve true c (mask_cached keep server rq) s
  = Tracker.fetchAttendanceData_resolve true c (server rq) s.
Proof. unfold mask_cached. by destruct (server rq). Qed.

Lemma tracker_autoLoad_mask {ops : StringOps} (fuel : nat) (server : Server) :
  forall s,
    Tracker.autoLoad fuel (mask_cached (fun _ => false) server) s
    = Tracker.autoLoad fuel server s.
Proof.
  induction fuel as [|fuel IH]; intros s; cbn [Tracker.autoLoad]; [done|].
  destruct (Tracker.autoLoadArmed s); [|done].
  by rewrite tracker_load_more_mask, IH.
Qed.

(** The first trickle batch of the directory reports a cache hit. *)
Lemma directory_midflight (fuel : nat) (server : Server) (startOffset total : nat)
    (s : Directory.State) (r : ApiResponse) :
  startOffset < total ->
  server (Directory.batch_request startOffset BATCH_SIZE) = Some r ->
  cached r = true ->
  snd (Directory.fetchRemainingEmployees_loop (S fuel) server startOffset total
         startOffset s)
  = mkIssued Trickle 500 (Directory.batch_request startOffset BATCH_SIZE)
      (length (Directory.employees s))
    :: (if startOffset + BATCH_SIZE <? total
        then [mkIssued BulkRemainder 50
                (Directory.batch_request (startOffset + BATCH_SIZE)
                   (total - (startOffset + BATCH_SIZE)))
                (length (Directory.employees
                           (Directory.mergeEmployees (Directory.processedData (results r)) s)))]
        else []).
Proof.
  intros Hlt Hr Hc. cbn [Directory.fetchRemainingEmployees_loop].
  apply Nat.ltb_lt in Hlt. rewrite Hlt, Hr, Hc, Nat.eqb_refl. cbn [andb].
  replace (0 <? total - (startOffset + BATCH_SIZE))
    with (startOffset + BATCH_SIZE <? total)
    by (destruct (Nat.ltb_spec (startOffset + BATCH_SIZE) total),
                 (Nat.ltb_spec 0 (total - (startOffset + BATCH_SIZE))); lia).
  destruct (startOffset + BATCH_SIZE <? total); [|done].
  pose proof (fetchAllRemainingAtOnce_trace 50 server (startOffset + BATCH_SIZE)
                (total - (startOffset + BATCH_SIZE))
                (Directory.mergeEmployees (Directory.processedData (results r)) s)) as H.
  destruct (Directory.fetchAllRemainingAtOnce _ _ _ _ _) as [s2 tr].
  simpl in *. by subst tr.
Qed.

(** The state after that batch. *)
Lemma directory_midflight_state (fuel : nat) (server : Server) (startOffset total : nat)
    (s : Directory.State) (r : ApiResponse) :
  startOffset < total ->
  server (Directory.batch_request startOffset BATCH_SIZE) = Some r ->
  cached r = true ->
  fst (Directory.fetchRemainingEmployees_loop (S fuel) server startOffset total
         startOffset s)
  = if startOffset + BATCH_SIZE <? total
    then fst (Directory.fetchAllRemainingAtOnce 50 server (startOffset + BATCH_SIZE)
                (total - (startOffset + BATCH_SIZE))
                (Directory.mergeEmployees (Directory.processedData (results r)) s))
    else Directory.setHasMore false
           (Directory.mergeEmployees (Directory.processedData (results r)) s).
Proof.
  intros Hlt Hr Hc. cbn [Directory.fetchRemainingEmployees_loop].
  apply Nat.ltb_lt in Hlt. rewrite Hlt, Hr, Hc, Nat.eqb_refl. cbn [andb].
  replace (0 <? total - (startOffset + BATCH_SIZE))
    with (startOffset + BATCH_SIZE <? total)
    by (destruct (Nat.ltb_spec (startOffset + BATCH_SIZE) total),
                 (Nat.ltb_spec 0 (total - (startOffset + BATCH_SIZE))); lia).
  destruct (startOffset + BATCH_SIZE <? total); [|done].
  by destruct (Directory.fetchAllRemainingAtOnce _ _ _ _ _).
Qed.

(** C6, as stated, fails.  Against [cache_warms_late] the third batch of a
    directory session (offset 60) reports a cache hit, and the session goes
    on in batches of 30 to the end.  Against [cache_warms_early] every
    load-more batch of a tracker session reports a cache hit, and the
    session goes on in batches of 30 to the end. *)
Lemma C6_later_cache_hit_is_ignored :
  cached <$> cache_warms_late (Directory.batch_request 60 BATCH_SIZE) = Some true
  /\ (let tr := snd (Directory.session cache_warms_late Directory.initial_state) in
      offset_limit tr = [(0, 30); (30, 30); (60, 30); (90, 30); (120, 30)]
      /\ iss_kind <$> tr = [FirstPage; Trickle; Trickle; Trickle; Trickle])
  /\ (let tr := snd (Tracker.session (ops:=ascii_ops) 10 cache_warms_early
                       (Tracker.initial_state Tracker.initial_filter)) in
      offset_limit tr = [(0, 30); (30, 30); (60, 30); (90, 30); (120, 30)]
      /\ iss_kind <$> tr = [FirstPage; Trickle; Trickle; Trickle; Trickle]).
Proof. by vm_compute. Qed.

(** C6 (amended): in the employee directory only the first trickle batch,
    the one requested at the start offset, is inspected for a cache hit: when
    it reports one, its records are merged into the accumulated list (mapped,
    and without those whose id or employee id is there already) and the
    records left are asked for in a single request, 50 ms later (at the next
    offset, with the number of records left as limit), whose records are
    merged in the same way, after which [hasMore] is false; when that request
    fails the list stays as the first batch left it; when nothing is left no
    request is sent and [hasMore] is false.  The cache flag of every other
    batch is ignored.  A directory session sends at most one bulk request,
    and nothing after it.  The attendance tracker does not read the cache
    flag of a load-more batch at all. *)
Theorem C6_midflight_escalation {ops : StringOps} :
  (forall fuel server startOffset total s r,
     startOffset < total ->
     server (Directory.batch_request startOffset BATCH_SIZE) = Some r ->
     cached r = true ->
     let out := Directory.fetchRemainingEmployees_loop (S fuel) server
                  startOffset total startOffset s in
     let merged := Directory.employees s
                   ++ Directory.newEmployees (Directory.employees s)
                        (Directory.processedData (results r)) in
     let left := total - (startOffset + BATCH_SIZE) in
     offset_limit (snd out)
     = (startOffset, BATCH_SIZE)
       :: (if startOffset + BATCH_SIZE <? total
           then [(startOffset + BATCH_SIZE, left)] else [])
     /\ iss_kind <$> snd out
        = Trickle :: (if startOffset + BATCH_SIZE <? total
                      then [BulkRemainder] else [])
     /\ iss_delay <$> snd out
        = 500 :: (if startOffset + BATCH_SIZE <? total then [50] else [])
     /\ (if startOffset + BATCH_SIZE <? total
         then match server (Directory.batch_request (startOffset + BATCH_SIZE) left) with
              | Some rb =>
                  Directory.employees (fst out)
                  = merged ++ Directory.newEmployees merged
                                (Directory.processedData (results rb))
                  /\ Directory.hasMore (fst out) = false
              | None =>
                  Directory.employees (fst out) = merged
                  /\ Directory.hasMore (fst out) = Directory.hasMore s
              end
         else Directory.employees (fst out) = merged
              /\ Directory.hasMore (fst out) = false))
  /\ (forall server startOffset total s,
        Directory.fetchRemainingEmployees
          (mask_cached (fun rq => rq_offset rq =? startOffset) server)
          startOffset total s
        = Directory.fetchRemainingEmployees server startOffset total s)
  /\ (forall server s0, bulk_is_last (snd (Directory.session server s0)))
  /\ (forall fuel server s,
        Tracker.autoLoad fuel (mask_cached (fun _ => false) server) s
        = Tracker.autoLoad fuel server s).
Proof.
  split; [|split; [|split]].
  - intros fuel server startOffset total s r Hlt Hr Hc. cbv zeta.
    rewrite (directory_midflight fuel server startOffset total s r Hlt Hr Hc).
    rewrite (directory_midflight_state fuel server startOffset total s r Hlt Hr Hc).
    destruct (startOffset + BATCH_SIZE <? total); [|done].
    repeat split. unfold Directory.fetchAllRemainingAtOnce.
    by destruct (server (Directory.batch_request (startOffset + BATCH_SIZE) _)).
  - intros. apply directory_loop_mask.
  - apply directory_session_bulk_is_last.
  - apply tracker_autoLoad_mask.
Qed.

(** Thirty records are there and 130 are to come; the batch at offset 30 is
    served from the cache: the 70 records left are asked for at once, and
    all 130 are accumulated. *)
Lemma C6_midflight_escalation_witness :
  let out := Directory.fetchRemainingEmployees_loop 131 cache_warms_early 30 130 30
               (Directory.mkState (Directory.processedData (sample_db 1 30))
                  false false None 130 true 30) in
  offset_limit (snd out) = [(30, 30); (60, 70)]
  /\ Directory.employees (fst out) = Directory.processedData (sample_db 1 130)
  /\ Directory.hasMore (fst out) = false.
Proof.
  destruct (C6_midflight_escalation (ops:=ascii_ops)) as (H & _).
  assert (Hlt : 30 < 130) by lia.
  assert (Hr : cache_warms_early (Directory.batch_request 30 BATCH_SIZE)
               = Some (mkResp (sample_db 31 30) 130 true true))
    by (vm_compute; reflexivity).
  destruct (H 130 cache_warms_early 30 130
              (Directory.mkState (Directory.processedData (sample_db 1 30))
                 false false None 130 true 30)
              (mkResp (sample_db 31 30) 130 true true) Hlt Hr eq_refl)
    as (E1 & _ & _ & E2).
  cbv zeta. split; [exact E1|].
  change (30 + BATCH_SIZE <? 130) with true in E2. cbv iota in E2.
  assert (Hrb : cache_warms_early (Directory.batch_request (30 + BATCH_SIZE)
                                     (130 - (30 + BATCH_SIZE)))
                = Some (mkResp (sample_db 61 70) 130 false true))
    by (vm_compute; reflexivity).
  rewrite Hrb in E2. destruct E2 as [E2 E3]. split; [|exact E3].
  etrans; [exact E2|]. vm_compute. reflexivity.
Defined.

(** * C7: the offsets of a session *)

Lemma batch_offsets_cons (o n : nat) :
  batch_offsets o (S n) = o :: batch_offsets (o + BATCH_SIZE) n.
Proof.
  unfold batch_offsets. cbn [seq fmap list_fmap]. f_equal; [lia|].
  rewrite <- fmap_S_seq, <- list_fmap_compose. apply list_fmap_ext.
  intros _ j _. simpl. unfold BATCH_SIZE. lia.
Qed.




(** Nothing is sent while the accumulated list is empty. *)
Lemma tracker_autoLoad_unarmed {ops : StringOps}
    (fuel : nat) (server : Server) (s : Tracker.State) :
  Tracker.autoLoadArmed s = false -> Tracker.autoLoad fuel server s = (s, []).
Proof. intros H. destruct fuel; cbn [Tracker.autoLoad]; [done | by rewrite H]. Qed.



Lemma directory_loop_offsets (fuel : nat) (server : Server) (startOffset total : nat) :
  forall currentOffset s,
    offsets (snd (Directory.fetchRemainingEmployees_loop fuel server startOffset
                    total currentOffset s))
    = batch_offsets currentOffset
        (length (snd (Directory.fetchRemainingEmployees_loop fuel server startOffset
                        total currentOffset s))).
Proof.
  induction fuel as [|fuel IH]; intros currentOffset s;
    cbn [Directory.fetchRemainingEmployees_loop]; [done|].
  destruct (currentOffset <? total); [|done].
  assert (Hone : forall e : Issued, rq_offset (iss_req e) = currentOffset ->
                   offsets [e] = batch_offsets currentOffset 1)
    by (intros e He; cbn; f_equal; lia).
  destruct (server _) as [r|]; [|by apply Hone].
  destruct (cached r && (currentOffset =? startOffset)).
  - destruct (0 <? total - (currentOffset + BATCH_SIZE)); [|by apply Hone].
    pose proof (fetchAllRemainingAtOnce_trace 50 server (currentOffset + BATCH_SIZE)
                  (total - (currentOffset + BATCH_SIZE))
                  (Directory.mergeEmployees (Directory.processedData (results r)) s)) as H.
    destruct (Directory.fetchAllRemainingAtOnce _ _ _ _ _) as [s2 tr].
    cbn [fst snd] in *. subst tr. cbn [length].
    rewrite !batch_offsets_cons. cbn. done.
  - destruct (length (results r) =? 0); [by apply Hone|].
    specialize (IH (currentOffset + BATCH_SIZE)
                  (Directory.mergeEmployees (Directory.processedData (results r)) s)).
    destruct (Directory.fetchRemainingEmployees_loop _ _ _ _ _ _) as [s2 tr].
    cbn [fst snd] in *. cbn [length]. rewrite batch_offsets_cons, <- IH. done.
Qed.

(** In the directory, request [j] of a session is sent at offset [30 j]. *)
Lemma directory_session_offsets (server : Server) (s0 : Directory.State) :
  offsets (snd (Directory.session server s0))
  = batch_offsets 0 (length (snd (Directory.session server s0))).
Proof.
  unfold Directory.session.
  destruct (server (Directory.refreshEmployeeData_request false s0)) as [r|];
    [|done].
  unfold Directory.refreshEmployeeData_resolve.
  destruct (cached r && has_more r && (BATCH_SIZE <? total_count r)).
  - match goal with |- context [Directory.fetchAllRemainingAtOnce ?d _ ?a ?b ?s] =>
      pose proof (fetchAllRemainingAtOnce_trace d server a b s) as H;
      destruct (Directory.fetchAllRemainingAtOnce d server a b s) as [s3 tr] end.
    cbn [fst snd] in *. subst tr. done.
  - destruct (has_more r && (BATCH_SIZE <? total_count r)); [|done].
    unfold Directory.fetchRemainingEmployees.
    match goal with |- context [Directory.fetchRemainingEmployees_loop ?f _ ?a ?b ?c ?s] =>
      pose proof (directory_loop_offsets f server a b c s) as H;
      destruct (Directory.fetchRemainingEmployees_loop f server a b c s) as [s3 tr] end.
    cbn [fst snd] in *. cbn [length]. rewrite batch_offsets_cons. cbn.
    by rewrite <- H.
Qed.

(** *** Offsets and counts against a paged backend *)









(** * C8: completeness *)

(** C8 at a failing input: in the employee directory, against
    [third_batch_fails] (130 records, the request at offset 60 fails), the
    loop of [fetchRemainingEmployees] breaks and the [setHasMore(false)]
    after it runs all the same: the session ends with [hasMore] false, 60
    records accumulated and a total of 130. *)
Lemma C8_directory_complete_with_partial_data :
  let out := Directory.session third_batch_fails Directory.initial_state in
  offset_limit (snd out) = [(0, 30); (30, 30); (60, 30)]
  /\ Directory.hasMore (fst out) = false
  /\ length (Directory.employees (fst out)) = 60
  /\ Directory.totalCount (fst out) = 130.
Proof. by vm_compute. Qed.

(** *** Without a failed fetch, against a paged backend, a session that ends
    has everything *)

(** Once the auto-load effect has come to rest, more fuel changes nothing. *)
Lemma tracker_autoLoad_fuel {ops : StringOps} (server : Server) :
  forall fuel fuel' s,
    fuel <= fuel' ->
    Tracker.autoLoadArmed (fst (Tracker.autoLoad fuel server s)) = false ->
    Tracker.autoLoad fuel' server s = Tracker.autoLoad fuel server s.
Proof.
  induction fuel as [|fuel IH]; intros fuel' s Hle Hrest.
  - by apply tracker_autoLoad_unarmed.
  - destruct fuel' as [|fuel']; [lia|]. cbn [Tracker.autoLoad] in *.
    destruct (Tracker.autoLoadArmed s); [|done].
    set (s2 := fst (Tracker.fetchAttendanceData_resolve _ _ _ _)) in *.
    specialize (IH fuel' s2). clearbody s2.
    destruct (Tracker.autoLoad fuel server s2) as [s3 tr]. cbn [fst] in *.
    rewrite IH by (done || lia). done.
Qed.





(** * Further properties: the query parameters of the tracker *)

(** [indexOf_succ m l] is 0 exactly when [m] is not in [l], and otherwise
    names the first place of [m], counted from 1. *)
Lemma indexOf_succ_0 (m : string) (l : list string) :
  Tracker.indexOf_succ m l = 0 <-> m ∉ l.
Proof.
  induction l as [|x l IH]; simpl.
  - split; [intros _; apply not_elem_of_nil | done].
  - rewrite not_elem_of_cons. destruct (String.eqb_spec x m) as [->|Hne].
    + split; [done | tauto].
    + destruct (Tracker.indexOf_succ m l) as [|j].
      * split; [intros _; split; [congruence | by apply IH] | done].
      * split; [done | intros [_ H]; by apply IH in H].
Qed.

Lemma indexOf_succ_S (m : string) (l : list string) (i : nat) :
  Tracker.indexOf_succ m l = S i -> l !! i = Some m.
Proof.
  revert i. induction l as [|x l IH]; intros i; simpl; [done|].
  destruct (String.eqb_spec x m) as [->|Hne]; [by intros [= <-]|].
  destruct (Tracker.indexOf_succ m l) as [|j]; [done|].
  intros [= <-]. simpl. by apply IH.
Qed.

(** X1: The [month] parameter of a ['custom'] or ['custom_month'] request is the
    place of the selected month in [monthNames], from 1 to 12; a month that
    is not one of the twelve names is sent as [month=0]. *)
Theorem month_parameter (f : Tracker.Filter) :
  Tracker.filterType f = Tracker.custom \/ Tracker.filterType f = Tracker.custom_month ->
  truthy_str (Tracker.selectedMonth f) = true ->
  truthy_num (Tracker.selectedYear f) = true ->
  exists k,
    get_param "month" (Tracker.fetchAttendanceData_params f) = Some (pretty k)
    /\ get_param "month" (Tracker.fetchRemainingRecords_params f) = Some (pretty k)
    /\ k <= 12
    /\ (k = 0 <-> Tracker.selectedMonth f ∉ Tracker.monthNames)
    /\ (forall i, k = S i -> Tracker.monthNames !! i = Some (Tracker.selectedMonth f)).
Proof.
  intros Hf Hm Hy.
  exists (Tracker.indexOf_succ (Tracker.selectedMonth f) Tracker.monthNames).
  split; [|split; [|split; [|split]]].
  - unfold Tracker.fetchAttendanceData_params, Tracker.period_params.
    destruct Hf as [-> | ->]; rewrite Hm, Hy; simpl; done.
  - unfold Tracker.fetchRemainingRecords_params, Tracker.period_params.
    destruct Hf as [-> | ->]; rewrite Hm, Hy; simpl; done.
  - destruct (Tracker.indexOf_succ _ _) as [|i] eqn:E; [lia|].
    apply indexOf_succ_S, lookup_lt_Some in E. simpl in E. lia.
  - apply indexOf_succ_0.
  - intros i. apply indexOf_succ_S.
Qed.

Lemma month_parameter_witness :
  exists k,
    get_param "month"
      (Tracker.fetchAttendanceData_params
         (Tracker.mkFilter Tracker.custom_month "Sept" 2025 "" "" "")) = Some (pretty k)
    /\ k = 0.
Proof.
  destruct (month_parameter (Tracker.mkFilter Tracker.custom_month "Sept" 2025 "" "" ""))
    as (k & E & _ & _ & Hk & _); [by right | done | done |].
  exists k. split; [exact E|]. apply Hk. by apply (bool_decide_unpack _).
Defined.

(** X2: For every filter but ['custom_month'] the bulk request carries the filter
    parameters of the first request. *)
Theorem remaining_params_agree (f : Tracker.Filter) :
  Tracker.filterType f <> Tracker.custom_month ->
  Tracker.fetchRemainingRecords_params f = Tracker.fetchAttendanceData_params f.
Proof.
  intros Hf. unfold Tracker.fetchRemainingRecords_params,
    Tracker.fetchAttendanceData_params. by destruct (decide _).
Qed.

Lemma remaining_params_agree_witness :
  Tracker.fetchRemainingRecords_params
    (Tracker.mkFilter Tracker.one_day "" 2025 "" "" "2025-03-14")
  = [("time_period", "custom_range"); ("start_date", "2025-03-14");
     ("end_date", "2025-03-14")].
Proof. rewrite remaining_params_agree; [reflexivity | done]. Defined.

(** X3: A date range and a single day are both sent as
    [time_period=custom_range]: the query has one [time_period] pair,
    followed by [start_date] and [end_date], which for a single day are both
    the selected date.  Without the dates the filter type is sent alone. *)
Theorem range_parameters (f : Tracker.Filter) :
  (Tracker.filterType f = Tracker.custom_range ->
   Tracker.fetchAttendanceData_params f
   = if truthy_str (Tracker.rangeStartDate f) && truthy_str (Tracker.rangeEndDate f)
     then [("time_period", "custom_range");
           ("start_date", Tracker.rangeStartDate f);
           ("end_date", Tracker.rangeEndDate f)]
     else [("time_period", "custom_range")])
  /\ (Tracker.filterType f = Tracker.one_day ->
      Tracker.fetchAttendanceData_params f
      = if truthy_str (Tracker.selectedDate f)
        then [("time_period", "custom_range");
              ("start_date", Tracker.selectedDate f);
              ("end_date", Tracker.selectedDate f)]
        else [("time_period", "one_day")]).
Proof.
  split; intros Hf; unfold Tracker.fetchAttendanceData_params, Tracker.period_params;
    rewrite Hf; simpl.
  - by destruct (truthy_str (Tracker.rangeStartDate f) && truthy_str (Tracker.rangeEndDate f)).
  - by destruct (truthy_str (Tracker.selectedDate f)).
Qed.

Lemma range_parameters_witness :
  Tracker.fetchAttendanceData_params
    (Tracker.mkFilter Tracker.one_day "" 2025 "" "" "2025-03-14")
  = [("time_period", "custom_range"); ("start_date", "2025-03-14");
     ("end_date", "2025-03-14")].
Proof.
  destruct (range_parameters (Tracker.mkFilter Tracker.one_day "" 2025 "" "" "2025-03-14"))
    as [_ H].
  exact (H eq_refl).
Defined.

(** * Further properties: the year and month controls of the tracker *)

#[local] Instance descending_transitive : Transitive TrackerUI.descending.
Proof. intros a b c. unfold TrackerUI.descending. lia. Qed.

#[local] Instance descending_total : Total TrackerUI.descending.
Proof. intros a b. unfold TrackerUI.descending. lia. Qed.

#[local] Instance descending_antisymm : AntiSymm (=) TrackerUI.descending.
Proof. intros a b. unfold TrackerUI.descending. lia. Qed.

(** X4: The year control offers seven years, from next year down to five years
    ago; the year selected at the start, 2025, is among them exactly from
    2024 to 2030. *)
Theorem generateYears_range (currentYear : Z) :
  TrackerUI.generateYears currentYear
  = [currentYear + 1; currentYear; currentYear - 1; currentYear - 2;
     currentYear - 3; currentYear - 4; currentYear - 5]%Z
  /\ (Z.of_nat (Tracker.selectedYear Tracker.initial_filter)
        ∈ TrackerUI.generateYears currentYear
      <-> (2024 <= currentYear <= 2030)%Z).
Proof.
  assert (E : TrackerUI.generateYears currentYear
              = [currentYear + 1; currentYear; currentYear - 1; currentYear - 2;
                 currentYear - 3; currentYear - 4; currentYear - 5]%Z).
  { unfold TrackerUI.generateYears.
    replace (currentYear + 1 - (currentYear - 5) + 1)%Z with 7%Z by lia.
    apply (StronglySorted_unique TrackerUI.descending).
    - apply StronglySorted_merge_sort; apply _.
    - repeat (constructor; [|repeat constructor; unfold TrackerUI.descending; lia]).
      constructor.
    - rewrite merge_sort_Permutation.
      replace (seqZ (currentYear - 5) 7)
        with (reverse [currentYear + 1; currentYear; currentYear - 1; currentYear - 2;
                       currentYear - 3; currentYear - 4; currentYear - 5]%Z)
        by (unfold seqZ; change (Z.to_nat 7) with 7%nat;
            cbn [seq fmap list_fmap reverse rev_append];
            repeat (apply (f_equal2 cons); [lia|]); reflexivity).
      apply reverse_Permutation. }
  split; [exact E|]. rewrite E. cbn [Tracker.selectedYear Tracker.initial_filter].
  rewrite !elem_of_cons, elem_of_nil. lia.
Qed.

(** [monthNames[i]] is at place [i + 1]. *)
Lemma indexOf_succ_monthNames (i : nat) (m : string) :
  Tracker.monthNames !! i = Some m ->
  Tracker.indexOf_succ m Tracker.monthNames = S i.
Proof.
  do 12 (destruct i as [|i]; [by intros [= <-]|]). done.
Qed.

(** Changing the year under ['custom_month'] resets the month; no effect
    fetches and none selects a month. *)
Lemma step_SetYear {ops : StringOps} (w : Tracker.World) (y : nat) :
  Tracker.filterType (Tracker.filt (Tracker.now w)) = Tracker.custom_month ->
  Tracker.step w (Tracker.SetYear y)
  = Tracker.withFilter
      (Tracker.setSelectedMonth "" (Tracker.setSelectedYear y (Tracker.filt (Tracker.now w))))
      w.
Proof.
  intros Hf. cbn [Tracker.step]. rewrite bool_decide_eq_true_2 by done.
  unfold Tracker.fetchEffects, Tracker.filterEffectFetches.
  cbn [Tracker.withFilter Tracker.now Tracker.setFilter Tracker.filt
       Tracker.setSelectedMonth Tracker.setSelectedYear
       Tracker.filterType Tracker.selectedMonth Tracker.selectedYear].
  rewrite Hf. change (truthy_str "") with false.
  by rewrite andb_false_r.
Qed.

(** X5: Choosing the filter type ['custom_month'] in the dropdown leads to a
    fetch: with a month and a year selected the request is sent for them;
    otherwise the current month and year are selected, and the request
    carries [month = getMonth() + 1] and the current year.  A change of the
    year after that resets the month and leads to no request and to no
    selection: the month is selected on a change of the filter type only. *)
Theorem custom_month_choice_fetches {ops : StringOps} (nowMonth nowYear : nat)
    (w : Tracker.World) :
  Tracker.loading (Tracker.now w) = false ->
  Tracker.filterType (Tracker.filt (Tracker.now w)) <> Tracker.custom_month ->
  nowMonth < 12 -> nowYear <> 0 ->
  let f := Tracker.filt (Tracker.now w) in
  let chosen := truthy_str (Tracker.selectedMonth f)
                && truthy_num (Tracker.selectedYear f) in
  let w' := Tracker.step w (Tracker.SetFilterType Tracker.custom_month nowMonth nowYear) in
  let f' := Tracker.filt (Tracker.now w') in
  (exists c, Tracker.pending w' = Tracker.pending w ++ [Tracker.mkPending FirstPage c 0]
             /\ Tracker.filt c = f')
  /\ Tracker.filterType f' = Tracker.custom_month
  /\ (chosen = true -> f' = Tracker.setFilterType Tracker.custom_month f)
  /\ (chosen = false ->
      Tracker.fetchAttendanceData_params f'
      = [("time_period", "custom"); ("month", pretty (S nowMonth));
         ("year", pretty nowYear)])
  /\ (forall y,
        let w'' := Tracker.step w' (Tracker.SetYear y) in
        Tracker.pending w'' = Tracker.pending w'
        /\ Tracker.selectedMonth (Tracker.filt (Tracker.now w'')) = ""
        /\ Tracker.selectedYear (Tracker.filt (Tracker.now w'')) = y).
Proof.
  intros Hl Hft Hm Hy. cbv zeta.
  assert (Hstep := step_SetFilterType w Tracker.custom_month nowMonth nowYear Hl).
  cbv zeta in Hstep.
  set (w' := Tracker.step w _) in *. clearbody w'.
  destruct w as [[[ft sm sy a b c] d l lm e tc hm o] pend tm].
  cbn [Tracker.now Tracker.filt Tracker.loading Tracker.filterType
       Tracker.selectedMonth Tracker.selectedYear Tracker.pending] in *.
  destruct (Tracker.monthNames !! nowMonth) as [m|] eqn:Em;
    [|apply lookup_ge_None in Em; simpl in Em; lia].
  assert (Hm' : truthy_str m = true)
    by (clear -Em; do 12 (destruct nowMonth as [|nowMonth];
          [by injection Em as <-|]); done).
  assert (Hy' : truthy_num nowYear = true)
    by (unfold truthy_num; by destruct nowYear).
  assert (Hm'' : m <> "")
    by (intros ->; done).
  pose proof (indexOf_succ_monthNames _ _ Em) as Ei.
  set (prev := Tracker.mkFilter ft sm sy a b c) in *.
  set (f := Tracker.setFilterType Tracker.custom_month prev) in *.
  set (f2 := Tracker.setSelectedYear nowYear (Tracker.setSelectedMonth m f)).
  set (chosen := truthy_str sm && truthy_num sy).
  assert (Hfetch1 : Tracker.filterEffectFetches prev f = chosen).
  { unfold Tracker.filterEffectFetches. subst prev f.
    cbn [Tracker.setFilterType Tracker.filterType Tracker.selectedMonth
         Tracker.selectedYear].
    by rewrite (bool_decide_eq_true_2 (ft <> Tracker.custom_month)) by done. }
  assert (Hauto : Tracker.autoSelectCurrentMonth nowMonth nowYear prev f
                  = if chosen then f else f2).
  { unfold Tracker.autoSelectCurrentMonth. rewrite Em. subst prev f f2 chosen.
    cbn [Tracker.setFilterType Tracker.filterType Tracker.selectedMonth
         Tracker.selectedYear default].
    rewrite (bool_decide_eq_true_2 (ft <> Tracker.custom_month)) by done.
    rewrite (bool_decide_eq_true_2 (Tracker.custom_month = Tracker.custom_month))
      by done.
    by destruct (truthy_str sm), (truthy_num sy). }
  assert (Hfetch2 : chosen = false -> Tracker.filterEffectFetches f f2 = true).
  { intros Hc. unfold Tracker.filterEffectFetches. subst prev f f2 chosen.
    cbn [Tracker.setFilterType Tracker.filterType Tracker.selectedMonth
         Tracker.selectedYear Tracker.setSelectedYear Tracker.setSelectedMonth].
    rewrite Hm', Hy', !andb_true_r.
    apply andb_false_iff in Hc as [Hc|Hc].
    - unfold truthy_str in Hc. apply negb_false_iff, String.eqb_eq in Hc.
      rewrite (bool_decide_eq_true_2 (sm <> m)) by congruence.
      by rewrite orb_true_r.
    - unfold truthy_num in Hc. apply negb_false_iff, Nat.eqb_eq in Hc.
      rewrite (bool_decide_eq_true_2 (sy <> nowYear)) by lia.
      by rewrite orb_true_r. }
  assert (Hparams : Tracker.fetchAttendanceData_params f2
                    = [("time_period", "custom"); ("month", pretty (S nowMonth));
                       ("year", pretty nowYear)]).
  { unfold Tracker.fetchAttendanceData_params, Tracker.period_params.
    subst prev f f2.
    cbn -[Tracker.indexOf_succ Tracker.monthNames pretty].
    by rewrite Hm', Hy', Ei. }
  assert (Hyear : forall w0, Tracker.filterType (Tracker.filt (Tracker.now w0))
                             = Tracker.custom_month ->
            forall y, Tracker.pending (Tracker.step w0 (Tracker.SetYear y))
                      = Tracker.pending w0
                      /\ Tracker.selectedMonth
                           (Tracker.filt (Tracker.now (Tracker.step w0 (Tracker.SetYear y))))
                         = ""
                      /\ Tracker.selectedYear
                           (Tracker.filt (Tracker.now (Tracker.step w0 (Tracker.SetYear y))))
                         = y)
    by (intros w0 H0 y; by rewrite (step_SetYear w0 y H0)).
  rewrite Hfetch1, Hauto in Hstep. clearbody chosen.
  destruct chosen.
  - subst w'. split; [by eexists|]. do 3 (split; [done|]). by apply Hyear.
  - rewrite Hfetch2 in Hstep by done. subst w'.
    split; [by eexists|]. do 2 (split; [done|]). split; [done|]. by apply Hyear.
Qed.

(** After the first page of the mount session, in November 2026, the user
    chooses ['custom_month']: November 2026 is requested. *)
Lemma custom_month_choice_fetches_witness :
  let ops := ascii_ops in
  let w := Tracker.step Tracker.mounted (Tracker.Arrive 0 (Some page_5y)) in
  let w' := Tracker.step w (Tracker.SetFilterType Tracker.custom_month 10 2026) in
  Tracker.fetchAttendanceData_params (Tracker.filt (Tracker.now w'))
  = [("time_period", "custom"); ("month", "11"); ("year", "2026")]
  /\ Tracker.pending (Tracker.step w' (Tracker.SetYear 2024)) = Tracker.pending w'.
Proof.
  intros ops. cbv zeta.
  destruct (custom_month_choice_fetches (ops:=ops) 10 2026
              (Tracker.step Tracker.mounted (Tracker.Arrive 0 (Some page_5y))))
    as (_ & _ & _ & H & Hyear); [reflexivity | done | lia | done |].
  split; [exact (H eq_refl) | apply (Hyear 2024)].
Defined.

(** * Further properties: events and failures *)

(** X6: A data-change event (upload, new employee, attendance update) makes the
    tracker fetch again with the filter of the mount render, the last five
    years, whatever filter is selected by then; when the answer arrives its
    records, mapped, replace the accumulated list, and the selected filter
    stays. *)
Theorem data_change_uses_mount_filter {ops : StringOps} (w : Tracker.World)
    (r : ApiResponse) :
  results r <> [] ->
  let w1 := TrackerUI.handleDataChange w in
  let i := length (Tracker.pending w) in
  TrackerUI.pending_request <$> Tracker.pending w1 !! i
  = Some (mkReq [("time_period", "last_5_years")] 0 BATCH_SIZE)
  /\ Tracker.filt (Tracker.now w1) = Tracker.filt (Tracker.now w)
  /\ (let w2 := Tracker.step w1 (Tracker.Arrive i (Some r)) in
      Tracker.attendanceData (Tracker.now w2)
      = Tracker.transformStandardToAttendanceRecords (results r)
      /\ Tracker.filt (Tracker.now w2) = Tracker.filt (Tracker.now w)).
Proof.
  intros Hr. cbv zeta.
  assert (E : Tracker.pending (TrackerUI.handleDataChange w)
              !! length (Tracker.pending w)
              = Some (Tracker.mkPending FirstPage
                        (Tracker.initial_state Tracker.initial_filter) 0))
    by apply list_lookup_middle, eq_refl.
  split; [by rewrite E|]. split; [done|].
  by apply (tracker_arrive_first_page _ _ _ r E).
Qed.

(** The last six months are selected and loaded when the event comes: the
    five records of the last five years replace the three that were shown,
    under the filter of the last six months. *)
Lemma data_change_uses_mount_filter_witness :
  let ops := ascii_ops in
  let w := Tracker.run Tracker.mounted
             [Tracker.Arrive 0 (Some page_5y);
              Tracker.SetFilterType Tracker.last_6_months 10 2026;
              Tracker.Arrive 0 (Some page_6)] in
  let w2 := Tracker.step (TrackerUI.handleDataChange w) (Tracker.Arrive 0 (Some page_5y)) in
  Tracker.filt (Tracker.now w) = filter_6
  /\ length (Tracker.attendanceData (Tracker.now w)) = 3
  /\ Tracker.attendanceData (Tracker.now w2)
     = Tracker.transformStandardToAttendanceRecords (results page_5y)
  /\ Tracker.filt (Tracker.now w2) = filter_6.
Proof.
  intros ops. cbv zeta. split; [reflexivity|]. split; [reflexivity|].
  destruct (data_change_uses_mount_filter (ops:=ops)
              (Tracker.run Tracker.mounted
                 [Tracker.Arrive 0 (Some page_5y);
                  Tracker.SetFilterType Tracker.last_6_months 10 2026;
                  Tracker.Arrive 0 (Some page_6)])
              page_5y) as (_ & _ & H1 & H2); [done|].
  split; [exact H1|]. etrans; [exact H2|]. reflexivity.
Defined.

(** X7: When the first request of a tracker session fails, the session ends
    there: one request, the error set, the accumulated list empty and
    [loading] false; [hasMore] and [totalCount] are those of the session
    before. *)
Theorem tracker_first_page_failure {ops : StringOps}
    (fuel : nat) (server : Server) (s0 : Tracker.State) :
  server (Tracker.fetchAttendanceData_request false s0) = None ->
  let out := Tracker.session fuel server s0 in
  snd out = [mkIssued FirstPage 0 (Tracker.fetchAttendanceData_request false s0) 0]
  /\ Tracker.attendanceData (fst out) = []
  /\ Tracker.error (fst out) = Some "Failed to load attendance data"
  /\ Tracker.loading (fst out) = false
  /\ Tracker.hasMore (fst out) = Tracker.hasMore s0
  /\ Tracker.totalCount (fst out) = Tracker.totalCount s0.
Proof.
  intros Hfail. cbv zeta. unfold Tracker.session. rewrite Hfail.
  cbn [Tracker.fetchAttendanceData_resolve].
  rewrite tracker_autoLoad_unarmed
    by (unfold Tracker.autoLoadArmed; cbn; by rewrite andb_false_r).
  done.
Qed.

Lemma tracker_first_page_failure_witness :
  let out := Tracker.session (ops:=ascii_ops) 5 (fun _ => None)
               (Tracker.mkState filter_6
                  (Tracker.transformStandardToAttendanceRecords (ops:=ascii_ops) (results page_6))
                  false false None 3 false 30) in
  length (snd out) = 1 /\ Tracker.attendanceData (fst out) = [].
Proof.
  destruct (tracker_first_page_failure (ops:=ascii_ops) 5 (fun _ => None)
              (Tracker.mkState filter_6
                  (Tracker.transformStandardToAttendanceRecords (ops:=ascii_ops) (results page_6))
                  false false None 3 false 30)
              eq_refl) as (E & E' & _).
  cbv zeta. rewrite E. split; [reflexivity | exact E'].
Defined.

(** X8: When the first request of a directory session fails, the session ends
    there, with the error set and [loading] false, and the list of employees
    is the one from before: a failed refresh keeps what was shown. *)
Theorem directory_first_page_failure (server : Server) (s0 : Directory.State) :
  server (Directory.refreshEmployeeData_request false s0) = None ->
  let out := Directory.session server s0 in
  snd out = [mkIssued FirstPage 0 (Directory.batch_request 0 BATCH_SIZE) 0]
  /\ Directory.employees (fst out) = Directory.employees s0
  /\ Directory.error (fst out) = Some "Failed to refresh employee data"
  /\ Directory.loading (fst out) = false
  /\ Directory.hasMore (fst out) = Directory.hasMore s0.
Proof.
  intros Hfail. cbv zeta. unfold Directory.session. rewrite Hfail. done.
Qed.

Lemma directory_first_page_failure_witness :
  let s0 := Directory.mkState (Directory.processedData (sample_db 1 30))
              false false None 30 false 30 in
  Directory.employees (fst (Directory.session (fun _ => None) s0)) 
  = Directory.processedData (sample_db 1 30).
Proof.
  destruct (directory_first_page_failure (fun _ => None)
              (Directory.mkState (Directory.processedData (sample_db 1 30))
                 false false None 30 false 30)
              eq_refl) as (_ & E & _).
  exact E.
Defined.

(** * Further properties: the requests of a session *)

Lemma batch_offsets_lookup (o n j : nat) :
  j < n -> batch_offsets o n !! j = Some (o + BATCH_SIZE * j).
Proof.
  intros Hj. unfold batch_offsets. rewrite list_lookup_fmap, lookup_seq_lt by done.
  done.
Qed.

Lemma directory_loop_below_total (fuel : nat) (server : Server) (startOffset total : nat) :
  forall currentOffset s,
    Forall (fun e => rq_offset (iss_req e) < total)
      (snd (Directory.fetchRemainingEmployees_loop fuel server startOffset total
              currentOffset s)).
Proof.
  induction fuel as [|fuel IH]; intros currentOffset s;
    cbn [Directory.fetchRemainingEmployees_loop]; [constructor|].
  destruct (currentOffset <? total) eqn:Hlt; [|constructor].
  apply Nat.ltb_lt in Hlt.
  destruct (server _) as [r|]; [|by repeat constructor].
  destruct (cached r && (currentOffset =? startOffset)).
  - destruct (0 <? total - (currentOffset + BATCH_SIZE)) eqn:Hrem;
      [|by repeat constructor].
    apply Nat.ltb_lt in Hrem.
    pose proof (fetchAllRemainingAtOnce_trace 50 server (currentOffset + BATCH_SIZE)
                  (total - (currentOffset + BATCH_SIZE))
                  (Directory.mergeEmployees (Directory.processedData (results r)) s)) as H.
    destruct (Directory.fetchAllRemainingAtOnce _ _ _ _ _) as [s2 tr].
    cbn [fst snd] in *. subst tr. repeat constructor; cbn; lia.
  - destruct (length (results r) =? 0); [by repeat constructor|].
    specialize (IH (currentOffset + BATCH_SIZE)
                  (Directory.mergeEmployees (Directory.processedData (results r)) s)).
    destruct (Directory.fetchRemainingEmployees_loop _ _ _ _ _ _) as [s2 tr].
    cbn [fst snd] in *. by constructor.
Qed.

(** X9: The directory never asks beyond the total the first page reported: every
    request after the first is at an offset below it, so a session of [n]
    requests has [30 (n - 1) < total_count] (or is the first request
    alone), whatever the backend answers afterwards. *)
Theorem directory_requests_below_total (server : Server) (s0 : Directory.State)
    (r : ApiResponse) :
  server (Directory.refreshEmployeeData_request false s0) = Some r ->
  let tr := snd (Directory.session server s0) in
  (forall i e, tr !! S i = Some e -> rq_offset (iss_req e) < total_count r)
  /\ (length tr = 1 \/ BATCH_SIZE * (length tr - 1) < total_count r).
Proof.
  intros Hr. cbv zeta.
  assert (H : exists rest,
             snd (Directory.session server s0)
             = mkIssued FirstPage 0 (Directory.batch_request 0 BATCH_SIZE) 0 :: rest
             /\ Forall (fun e => rq_offset (iss_req e) < total_count r) rest).
  { unfold Directory.session. rewrite Hr. unfold Directory.refreshEmployeeData_resolve.
    destruct (cached r && has_more r && (BATCH_SIZE <? total_count r)) eqn:E1.
    - apply andb_prop in E1 as [_ Ht]. apply Nat.ltb_lt in Ht.
      match goal with |- context [Directory.fetchAllRemainingAtOnce ?d _ ?a ?b ?s] =>
        pose proof (fetchAllRemainingAtOnce_trace d server a b s) as H;
        destruct (Directory.fetchAllRemainingAtOnce d server a b s) as [s3 tr] end.
      cbn [fst snd] in *. subst tr. eexists. split; [reflexivity|].
      by repeat constructor.
    - destruct (has_more r && (BATCH_SIZE <? total_count r)).
      + unfold Directory.fetchRemainingEmployees.
        match goal with |- context [Directory.fetchRemainingEmployees_loop ?f _ ?a ?b ?c ?s] =>
          pose proof (directory_loop_below_total f server a b c s) as H;
          destruct (Directory.fetchRemainingEmployees_loop f server a b c s) as [s3 tr] end.
        cbn [fst snd] in *. eexists. split; [reflexivity | done].
      + eexists. split; [reflexivity | constructor]. }
  destruct H as (rest & E & Hrest).
  pose proof (directory_session_offsets server s0) as Hoff. rewrite E in *.
  split.
  - intros i e He. cbn in He. by eapply Forall_lookup_1 in Hrest.
  - destruct rest as [|x rest' _] using rev_ind; [by left | right].
    apply Forall_app in Hrest as [_ Hx]. rewrite Forall_singleton in Hx.
    assert (Hlast : offsets (mkIssued FirstPage 0 (Directory.batch_request 0 BATCH_SIZE) 0
                             :: rest' ++ [x]) !! S (length rest')
                    = Some (rq_offset (iss_req x))).
    { unfold offsets. rewrite list_lookup_fmap, lookup_cons.
      by rewrite list_lookup_middle. }
    rewrite Hoff, batch_offsets_lookup in Hlast
      by (cbn; rewrite length_app; cbn; lia).
    apply (inj Some) in Hlast. cbn [length]. rewrite length_app. cbn [length].
    replace (S (length rest' + 1) - 1) with (S (length rest')) by lia. lia.
Qed.

Lemma directory_requests_below_total_witness :
  let tr := snd (Directory.session cache_warms_early Directory.initial_state) in
  length tr = 1 \/ BATCH_SIZE * (length tr - 1) < 130.
Proof.
  destruct (directory_requests_below_total cache_warms_early Directory.initial_state
              (mkResp (sample_db 1 30) 130 true false)) as [_ H].
  - vm_compute. reflexivity.
  - exact H.
Defined.

(** * Further properties: the accumulated list of the directory *)

(** X10: After the first page the directory only appends: the first page, as
    it was mapped and stored, stays in front, in its order, and the loop of
    [fetchRemainingEmployees] and [fetchAllRemainingAtOnce] keep the list
    they start from in front. *)
Theorem directory_only_appends (server : Server) :
  (forall s0 r,
     server (Directory.refreshEmployeeData_request false s0) = Some r ->
     Directory.processedData (results r)
     `prefix_of` Directory.employees (fst (Directory.session server s0)))
  /\ (forall startOffset total s,
        Directory.employees s
        `prefix_of` Directory.employees
                      (fst (Directory.fetchRemainingEmployees server startOffset total s)))
  /\ (forall delay startOffset remainingCount s,
        Directory.employees s
        `prefix_of` Directory.employees
                      (fst (Directory.fetchAllRemainingAtOnce delay server
                              startOffset remainingCount s))).
Proof.
  assert (Hmerge : forall P prev (rq : Request) (r : ApiResponse),
             P `prefix_of` prev -> server rq = Some r ->
             P `prefix_of` prev ++ Directory.newEmployees prev
                                     (Directory.processedData (results r)))
    by (intros; by apply prefix_app_r).
  split; [|split].
  - intros s0 r Hr. unfold Directory.session. rewrite Hr.
    unfold Directory.refreshEmployeeData_resolve.
    destruct (cached r && has_more r && (BATCH_SIZE <? total_count r)).
    + match goal with |- context [Directory.fetchAllRemainingAtOnce ?d _ ?a ?b ?s] =>
        pose proof (fetchAllRemainingAtOnce_inv server
                      (prefix (Directory.processedData (results r)))
                      (Hmerge (Directory.processedData (results r))) d a b s) as H;
        destruct (Directory.fetchAllRemainingAtOnce d server a b s) as [s3 tr] end.
      by apply H.
    + destruct (has_more r && (BATCH_SIZE <? total_count r)); [|done].
      unfold Directory.fetchRemainingEmployees.
      match goal with |- context [Directory.fetchRemainingEmployees_loop ?f _ ?a ?b ?c ?s] =>
        pose proof (fetchRemainingEmployees_loop_inv server
                      (prefix (Directory.processedData (results r)))
                      (Hmerge (Directory.processedData (results r))) f a b c s) as H;
        destruct (Directory.fetchRemainingEmployees_loop f server a b c s) as [s3 tr] end.
      by apply H.
  - intros startOffset total s.
    by apply (fetchRemainingEmployees_loop_inv server (prefix (Directory.employees s))
                (Hmerge _)).
  - intros delay startOffset remainingCount s.
    by apply (fetchAllRemainingAtOnce_inv server (prefix (Directory.employees s))
                (Hmerge _)).
Qed.

Lemma directory_only_appends_witness :
  exists r,
    paged_server (sample_db 1 70) (fun _ => false)
      (Directory.refreshEmployeeData_request false Directory.initial_state) = Some r
    /\ Directory.processedData (results r)
       `prefix_of` Directory.employees
                     (fst (Directory.session (paged_server (sample_db 1 70) (fun _ => false))
                             Directory.initial_state)).
Proof.
  eexists. split; [vm_compute; reflexivity|].
  apply (proj1 (directory_only_appends (paged_server (sample_db 1 70) (fun _ => false)))).
  vm_compute; reflexivity.
Defined.

Lemma filter_none {A} (P : A -> Prop) `{!forall x, Decision (P x)} (l : list A) :
  (forall x, x ∈ l -> ~ P x) -> filter P l = [].
Proof.
  induction l as [|x l IH]; intros Hl; [done|].
  rewrite filter_cons_False by (apply Hl; by left).
  apply IH. intros y Hy. apply Hl. by right.
Qed.

Lemma filter_none_newEmployees (prev batch : list Row) :
  Directory.newEmployees (prev ++ Directory.newEmployees prev batch) batch = [].
Proof.
  unfold Directory.newEmployees at 1. apply filter_none.
  intros e He. rewrite !elem_of_list_to_set, !fmap_app, !elem_of_app.
  destruct (decide (id e ∈ id <$> prev)) as [|Hid]; [tauto|].
  destruct (decide (employee_id e ∈ employee_id <$> prev)) as [|Hemp]; [tauto|].
  assert (e ∈ Directory.newEmployees prev batch) as Hnew
    by (by apply elem_of_newEmployees).
  intros [H _]. apply H. right. by apply list_elem_of_fmap_2.
Qed.

(** X11: Merging a page a second time adds nothing: whatever the page and the
    list, each of its records now finds its numeric id or its employee id in
    the accumulated list.  The first record with a key stays, a later one
    with the same key never replaces it. *)
Theorem mergeEmployees_idempotent (batch : list Row) (s : Directory.State) :
  Directory.mergeEmployees batch (Directory.mergeEmployees batch s)
  = Directory.mergeEmployees batch s
  /\ Directory.employees s
     `prefix_of` Directory.employees (Directory.mergeEmployees batch s).
Proof.
  split; [|by apply prefix_app_r].
  unfold Directory.mergeEmployees at 1. cbn [Directory.employees Directory.setEmployees
    Directory.mergeEmployees Directory.loading Directory.loadingMore Directory.error
    Directory.totalCount Directory.hasMore Directory.offset].
  rewrite filter_none_newEmployees, app_nil_r. done.
Qed.

(** * Further properties: the requests of a tracker session *)

Lemma tracker_resolve_filt {ops : StringOps} (loadMore : bool) (c : Tracker.State)
    (resp : option ApiResponse) (s : Tracker.State) :
  Tracker.filt (fst (Tracker.fetchAttendanceData_resolve loadMore c resp s))
  = Tracker.filt s.
Proof.
  destruct resp as [r|]; [|done]. unfold Tracker.fetchAttendanceData_resolve.
  destruct loadMore,
    (length (Tracker.transformStandardToAttendanceRecords (results r)) =? 0); done.
Qed.

Lemma tracker_autoLoad_shape {ops : StringOps} (fuel : nat) (server : Server) :
  forall s,
    Forall (load_more_with (Tracker.fetchAttendanceData_params (Tracker.filt s)))
      (snd (Tracker.autoLoad fuel server s)).
Proof.
  induction fuel as [|fuel IH]; intros s; cbn [Tracker.autoLoad]; [constructor|].
  destruct (Tracker.autoLoadArmed s); [|constructor].
  set (s2 := fst (Tracker.fetchAttendanceData_resolve _ _ _ _)).
  assert (Hs2 : Tracker.filt s2 = Tracker.filt s)
    by (subst s2; by rewrite tracker_resolve_filt).
  specialize (IH s2). clearbody s2. rewrite Hs2 in IH.
  destruct (Tracker.autoLoad fuel server s2) as [s3 tr]. cbn [fst snd] in *.
  constructor; [by repeat split | done].
Qed.

(** X12: Whatever the backend answers, a tracker session sends its first request,
    then at most one bulk request, right after it, and otherwise only
    load-more requests of 30 records, each 500 ms after the answer before
    it and with the filter parameters of the first request. *)
Theorem tracker_session_shape {ops : StringOps}
    (fuel : nat) (server : Server) (s0 : Tracker.State) :
  let first := mkIssued FirstPage 0 (Tracker.fetchAttendanceData_request false s0) 0 in
  exists rest,
    Forall (load_more_with (Tracker.fetchAttendanceData_params (Tracker.filt s0))) rest
    /\ (snd (Tracker.session fuel server s0) = first :: rest
        \/ exists have,
             snd (Tracker.session fuel server s0)
             = first :: mkIssued BulkRemainder 100
                          (Tracker.fetchRemainingRecords_request BATCH_SIZE s0) have
                :: rest).
Proof.
  cbv zeta. unfold Tracker.session.
  destruct (Tracker.fetchAttendanceData_resolve false s0 _ _) as [s2 bulk] eqn:E.
  assert (Hs2 : Tracker.filt s2 = Tracker.filt s0).
  { pose proof (tracker_resolve_filt false s0
                  (server (Tracker.fetchAttendanceData_request false s0))
                  (Tracker.fetchAttendanceData_begin false s0)) as H.
    by rewrite E in H. }
  assert (Hbulk : forall p, bulk = Some p -> fst p = BATCH_SIZE).
  { intros p Hp. subst bulk. unfold Tracker.fetchAttendanceData_resolve in E.
    destruct (server _) as [r|]; [|by simplify_eq].
    destruct (cached r && has_more r && (BATCH_SIZE <? total_count r));
      by simplify_eq. }
  destruct bulk as [[currentOffset totalRecords]|].
  - specialize (Hbulk _ eq_refl). cbn [fst] in Hbulk. subst currentOffset.
    set (s4 := Tracker.fetchRemainingRecords_resolve _ _ _).
    assert (Hs4 : Tracker.filt s4 = Tracker.filt s0)
      by (subst s4; destruct (server (Tracker.fetchRemainingRecords_request _ _));
          by cbn).
    pose proof (tracker_autoLoad_shape fuel server s4) as H. rewrite Hs4 in H.
    clearbody s4. destruct (Tracker.autoLoad fuel server s4) as [s5 tr].
    exists tr. split; [done|]. right. by eexists.
  - pose proof (tracker_autoLoad_shape fuel server s2) as H. rewrite Hs2 in H.
    destruct (Tracker.autoLoad fuel server s2) as [s5 tr].
    exists tr. split; [done|]. by left.
Qed.



(** * Further properties: labels *)

(** The label of a department is never empty, never blank and never ["0"],
    and labelling a label changes nothing, provided the label for "none"
    has these properties itself. *)
Lemma normalizeDepartmentOr_label (label : string) (white : Ascii.ascii -> bool)
    (dept : option string) :
  label <> "" -> blank white label = false -> label <> "0" ->
  let r := normalizeDepartmentOr label white dept in
  r <> "" /\ blank white r = false /\ r <> "0"
  /\ normalizeDepartmentOr label white (Some r) = r.
Proof.
  intros H1 H2 H3. cbv zeta.
  assert (Hlabel : normalizeDepartmentOr label white (Some label) = label).
  { unfold normalizeDepartmentOr.
    by destruct (truthy_str label && negb (blank white label)
                 && negb (String.eqb label "0")). }
  assert (Hr : normalizeDepartmentOr label white dept = label
               \/ exists d, normalizeDepartmentOr label white dept = d
                            /\ truthy_str d && negb (blank white d)
                               && negb (String.eqb d "0") = true).
  { unfold normalizeDepartmentOr. destruct dept as [d|]; [|by left].
    destruct (truthy_str d && negb (blank white d) && negb (String.eqb d "0")) eqn:E;
      [right; by exists d | by left]. }
  destruct Hr as [-> | (d & -> & E)]; [done|].
  assert (E' := E).
  apply andb_prop in E as [E Hz]. apply andb_prop in E as [Hne Hb].
  apply negb_true_iff in Hz, Hb. apply String.eqb_neq in Hz.
  unfold truthy_str in Hne. apply negb_true_iff, String.eqb_neq in Hne.
  repeat split; try done.
  unfold normalizeDepartmentOr. by rewrite E'.
Qed.

(** X14: In the directory a department is shown as itself or as ["-"]: the label
    is never empty, blank or ["0"], and it is its own label. *)
Theorem directory_department_label (white : Ascii.ascii -> bool) (dept : option string) :
  blank white "-" = false ->
  let r := DirectoryUI.normalizeDepartment white dept in
  r <> "" /\ blank white r = false /\ r <> "0"
  /\ DirectoryUI.normalizeDepartment white (Some r) = r.
Proof.
  intros Hw. by apply normalizeDepartmentOr_label.
Qed.

Lemma directory_department_label_witness :
  DirectoryUI.normalizeDepartment ascii_white (Some "   ") = "-"
  /\ DirectoryUI.normalizeDepartment ascii_white
       (Some (DirectoryUI.normalizeDepartment ascii_white (Some "Sales"))) = "Sales".
Proof.
  split; [reflexivity|].
  destruct (directory_department_label ascii_white (Some "Sales") eq_refl)
    as (_ & _ & _ & H).
  exact H.
Defined.

(** X15: In the tracker a department is shown as itself or as ["N/A"]: the
    label is never empty, blank or ["0"], and it is its own label. *)
Theorem tracker_department_label (white : Ascii.ascii -> bool) (dept : option string) :
  blank white "N/A" = false ->
  let r := TrackerView.normalizeDepartment white dept in
  r <> "" /\ blank white r = false /\ r <> "0"
  /\ TrackerView.normalizeDepartment white (Some r) = r.
Proof.
  intros Hw. by apply normalizeDepartmentOr_label.
Qed.

Lemma tracker_department_label_witness :
  TrackerView.normalizeDepartment ascii_white (Some "0") = "N/A"
  /\ TrackerView.normalizeDepartment ascii_white
       (Some (TrackerView.normalizeDepartment ascii_white None)) = "N/A".
Proof.
  split; [reflexivity|].
  destruct (tracker_department_label ascii_white None eq_refl) as (_ & _ & _ & H).
  exact H.
Defined.

(** X16: [normalizeField] with the default ["-"], on a string, [null] or
    [undefined]: the result is never empty and never ["0"], and normalizing
    it again changes nothing.  A number is printed as it is: the number 0
    gives ["0"], which the string ["0"] does not. *)
Theorem normalizeField_text (value : Directory.FieldValue) :
  (forall n, value <> Directory.FNum n) ->
  let r := Directory.normalizeField value "-" in
  r <> "" /\ r <> "0"
  /\ Directory.normalizeField (Directory.FStr r) "-" = r
  /\ Directory.normalizeField (Directory.FNum 0) "-" = "0".
Proof.
  intros Hnum. cbv zeta. destruct value as [| |s|n]; try done.
  - cbn. destruct (String.eqb_spec s "") as [->|H1]; [done|].
    destruct (String.eqb_spec s "0") as [->|H2]; [done|].
    cbn. repeat split; try done.
    destruct (String.eqb_spec s "") as [|_]; [done|].
    by destruct (String.eqb_spec s "0").
  - by destruct (Hnum n).
Qed.

Lemma normalizeField_text_witness :
  Directory.normalizeField (Directory.FStr "0") "-" = "-"
  /\ Directory.normalizeField
       (Directory.FStr (Directory.normalizeField (Directory.FStr "Clerk") "-")) "-"
     = "Clerk".
Proof.
  split; [reflexivity|].
  destruct (normalizeField_text (Directory.FStr "Clerk")) as (_ & _ & H & _); [done|].
  exact H.
Defined.

(** * Further properties: what the directory displays *)

Lemma filter_filter_bool {A} (p q : A -> bool) (l : list A) :
  List.filter p (List.filter q l) = List.filter (fun x => q x && p x) l.
Proof.
  induction l as [|x l IH]; [done|]. cbn. destruct (q x); cbn; [|done].
  destruct (p x); by rewrite IH.
Qed.

Lemma filter_all_bool {A} (p : A -> bool) (l : list A) :
  (forall x, p x = true) -> List.filter p l = l.
Proof.
  intros Hp. induction l as [|x l IH]; [done|]. cbn. by rewrite Hp, IH.
Qed.

Lemma elem_of_filter_bool {A} (p : A -> bool) (l : list A) (x : A) :
  x ∈ List.filter p l <-> x ∈ l /\ p x = true.
Proof. rewrite !list_elem_of_In. apply List.filter_In. Qed.

Lemma filter_bool_length {A} (p : A -> bool) (l : list A) :
  length (List.filter p l) <= length l.
Proof.
  induction l as [|x l IH]; [done|]. cbn. destruct (p x); cbn; lia.
Qed.

(** X17: The two filters of the directory compose: filtering by department and
    by search text at once is filtering by one and then by the other, in
    either order; with no department selected and no search text every
    loaded employee is listed; and a listed employee is a loaded one whose
    department is among the selected ones, if any is selected. *)
Theorem directory_filters_compose (toLowerCase : string -> string)
    (deps : list string) (q : string) (es : list DirectoryUI.EmployeeData) :
  DirectoryUI.filteredEmployees toLowerCase [] "" es = es
  /\ DirectoryUI.filteredEmployees toLowerCase deps q es
     = DirectoryUI.filteredEmployees toLowerCase [] q
         (DirectoryUI.filteredEmployees toLowerCase deps "" es)
  /\ DirectoryUI.filteredEmployees toLowerCase deps q es
     = DirectoryUI.filteredEmployees toLowerCase deps ""
         (DirectoryUI.filteredEmployees toLowerCase [] q es)
  /\ (forall e, e ∈ DirectoryUI.filteredEmployees toLowerCase deps q es ->
        e ∈ es /\ (deps = [] \/ DirectoryUI.department e ∈ deps)).
Proof.
  unfold DirectoryUI.filteredEmployees. split; [|split; [|split]].
  - by apply filter_all_bool.
  - rewrite filter_filter_bool. apply List.filter_ext. intros e.
    unfold DirectoryUI.employeeShown.
    change (truthy_str "") with false. cbn [length Nat.ltb Nat.leb andb negb].
    destruct (_ && negb (bool_decide _));
      by rewrite ?andb_false_r, ?andb_true_r.
  - rewrite filter_filter_bool. apply List.filter_ext. intros e.
    unfold DirectoryUI.employeeShown.
    change (truthy_str "") with false. cbn [length Nat.ltb Nat.leb andb negb].
    destruct (_ && negb (bool_decide _));
      by rewrite ?andb_false_r, ?andb_true_r.
  - intros e [He Hs]%elem_of_filter_bool. split; [done|].
    destruct deps as [|d deps]; [by left|right].
    unfold DirectoryUI.employeeShown in Hs. cbn [length Nat.ltb Nat.leb andb] in Hs.
    by case_bool_decide.
Qed.

(** X18: The search text is compared in lower case, in the directory and in the
    tracker: two search texts with the same lower case select the same
    rows. *)
Theorem search_ignores_case (toLowerCase : string -> string)
    (white : Ascii.ascii -> bool) (q1 q2 : string)
    (deps : list string) (es : list DirectoryUI.EmployeeData)
    (dep : string) (rs : list TrackerView.AttendanceRecord) :
  toLowerCase q1 = toLowerCase q2 -> (q1 = "" <-> q2 = "") ->
  DirectoryUI.filteredEmployees toLowerCase deps q1 es
  = DirectoryUI.filteredEmployees toLowerCase deps q2 es
  /\ TrackerView.filteredBySearch toLowerCase white q1 dep rs
     = TrackerView.filteredBySearch toLowerCase white q2 dep rs.
Proof.
  intros Hlow Hempty.
  assert (Ht : truthy_str q1 = truthy_str q2).
  { unfold truthy_str.
    destruct (String.eqb_spec q1 ""), (String.eqb_spec q2 ""); try done;
      exfalso; tauto. }
  split; apply List.filter_ext; intros e.
  - unfold DirectoryUI.employeeShown. by rewrite Ht, Hlow.
  - unfold TrackerView.recordShown. cbv zeta. by rewrite Ht, Hlow.
Qed.

Lemma search_ignores_case_witness :
  let e1 := DirectoryUI.mkEmployee (mkRow 1 "E1" "Asha Rao") "Sales" "Clerk" true None in
  let e2 := DirectoryUI.mkEmployee (mkRow 2 "E2" "Ben Roy") "Stores" "Driver" true None in
  DirectoryUI.filteredEmployees ascii_toLowerCase [] "SALES" [e1; e2]
  = DirectoryUI.filteredEmployees ascii_toLowerCase [] "sales" [e1; e2]
  /\ DirectoryUI.filteredEmployees ascii_toLowerCase [] "sales" [e1; e2] = [e1].
Proof.
  cbv zeta. split; [|reflexivity].
  refine (proj1 (search_ignores_case ascii_toLowerCase ascii_white "SALES" "sales"
                   [] _ "all" [] eq_refl _)).
  split; intros H; discriminate H.
Defined.

(** X19: The department options of the filter dialog are the departments of the
    loaded employees, and each option selects at least one of them: an
    employee is labelled when it is loaded, and labelling the label again
    for the options changes nothing. *)
Theorem department_options_of_loaded (toLowerCase : string -> string)
    (white : Ascii.ascii -> bool) (raws : list DirectoryUI.RawEmployee) (d : string) :
  blank white "-" = false ->
  let es := DirectoryUI.processEmployee white <$> raws in
  d ∈ DirectoryUI.departmentOptions white es
  <-> exists e, e ∈ es /\ DirectoryUI.department e = d
                /\ e ∈ DirectoryUI.filteredEmployees toLowerCase [d] "" es.
Proof.
  intros Hw. cbv zeta.
  assert (Hlab : forall e, e ∈ DirectoryUI.processEmployee white <$> raws ->
            DirectoryUI.normalizeDepartment white (Some (DirectoryUI.department e))
            = DirectoryUI.department e).
  { intros e (raw & -> & _)%list_elem_of_fmap.
    apply (normalizeDepartmentOr_label "-" white (DirectoryUI.raw_department raw));
      done. }
  unfold DirectoryUI.departmentOptions.
  rewrite elem_of_list_to_set, list_elem_of_fmap. split.
  - intros (e & -> & He). exists e. rewrite (Hlab e He). split; [done|split; [done|]].
    apply elem_of_filter_bool. split; [done|].
    unfold DirectoryUI.employeeShown. cbn [length Nat.ltb Nat.leb andb].
    rewrite bool_decide_eq_true_2 by (by left). done.
  - intros (e & He & <- & _). exists e. by rewrite (Hlab e He).
Qed.

Lemma department_options_of_loaded_witness :
  let raws := [DirectoryUI.mkRaw 1 "E1" (Directory.FStr "Asha") (Some "0")
                 Directory.FNull (Some true) None;
               DirectoryUI.mkRaw 2 "E2" (Directory.FStr "Ben") (Some "Sales")
                 Directory.FNull None None] in
  let es := DirectoryUI.processEmployee ascii_white <$> raws in
  exists e, e ∈ es /\ DirectoryUI.department e = "-"
            /\ e ∈ DirectoryUI.filteredEmployees ascii_toLowerCase ["-"] "" es.
Proof.
  cbv zeta.
  refine (proj1 (department_options_of_loaded ascii_toLowerCase ascii_white _ "-"
                   eq_refl) _).
  apply (bool_decide_unpack _). vm_compute. reflexivity.
Defined.

(** X20: Toggling the active status rewrites the rows with that id and no other:
    identities, order, departments and designations stay; the new status is
    the opposite of the status the caller passed, so that a second call with
    the same argument (a second click before the list is drawn again) does
    not switch it back; a failed call changes nothing. *)
Theorem toggle_active_status (employeeId : Z) (currentStatus : bool)
    (resp : option (option string)) (employees : list DirectoryUI.EmployeeData) :
  let es' := DirectoryUI.handleToggleActiveStatus employeeId currentStatus resp employees in
  DirectoryUI.ident <$> es' = DirectoryUI.ident <$> employees
  /\ DirectoryUI.department <$> es' = DirectoryUI.department <$> employees
  /\ DirectoryUI.designation <$> es' = DirectoryUI.designation <$> employees
  /\ (forall i e, employees !! i = Some e -> id (DirectoryUI.ident e) <> employeeId ->
        es' !! i = Some e)
  /\ (forall i e inactive, resp = Some inactive -> employees !! i = Some e ->
        id (DirectoryUI.ident e) = employeeId ->
        exists e', es' !! i = Some e'
                   /\ DirectoryUI.is_active e' = negb currentStatus
                   /\ DirectoryUI.inactive_marked_at e' = inactive)
  /\ (forall r1 r2,
        DirectoryUI.handleToggleActiveStatus employeeId currentStatus (Some r2)
          (DirectoryUI.handleToggleActiveStatus employeeId currentStatus (Some r1) employees)
        = DirectoryUI.handleToggleActiveStatus employeeId currentStatus (Some r2) employees)
  /\ DirectoryUI.handleToggleActiveStatus employeeId currentStatus None employees
     = employees.
Proof.
  cbv zeta. unfold DirectoryUI.handleToggleActiveStatus.
  repeat match goal with |- _ /\ _ => split end; try done.
  - destruct resp as [r|]; [|done]. rewrite <- list_fmap_compose.
    induction employees as [|e l IH]; [done|]. cbn. rewrite IH.
    by case_bool_decide.
  - destruct resp as [r|]; [|done]. rewrite <- list_fmap_compose.
    induction employees as [|e l IH]; [done|]. cbn. rewrite IH.
    by case_bool_decide.
  - destruct resp as [r|]; [|done]. rewrite <- list_fmap_compose.
    induction employees as [|e l IH]; [done|]. cbn. rewrite IH.
    by case_bool_decide.
  - intros i e He Hid. destruct resp as [r|]; [|done].
    rewrite list_lookup_fmap, He. cbn. by rewrite bool_decide_eq_false_2.
  - intros i e inactive -> He Hid.
    rewrite list_lookup_fmap, He. cbn. rewrite bool_decide_eq_true_2 by done.
    by eexists.
  - intros r1 r2. rewrite <- list_fmap_compose.
    induction employees as [|e l IH]; [done|]. cbn. rewrite IH. f_equal.
    destruct (decide (id (DirectoryUI.ident e) = employeeId)) as [Hid|Hid].
    + rewrite (bool_decide_eq_true_2 _ Hid). cbn.
      by rewrite (bool_decide_eq_true_2 _ Hid).
    + rewrite (bool_decide_eq_false_2 _ Hid). cbn.
      by rewrite (bool_decide_eq_false_2 _ Hid).
Qed.

Lemma toggle_active_status_witness :
  let e1 := DirectoryUI.mkEmployee (mkRow 1 "E1" "Asha Rao") "Sales" "Clerk" true None in
  let e2 := DirectoryUI.mkEmployee (mkRow 2 "E2" "Ben Roy") "Stores" "Driver" true None in
  let es' := DirectoryUI.handleToggleActiveStatus 2 true (Some (Some "2025-01-05")) [e1; e2] in
  es' !! 0 = Some e1
  /\ exists e', es' !! 1 = Some e'
                /\ DirectoryUI.is_active e' = false
                /\ DirectoryUI.inactive_marked_at e' = Some "2025-01-05".
Proof.
  cbv zeta.
  pose proof (toggle_active_status 2 true (Some (Some "2025-01-05"))
    [DirectoryUI.mkEmployee (mkRow 1 "E1" "Asha Rao") "Sales" "Clerk" true None;
     DirectoryUI.mkEmployee (mkRow 2 "E2" "Ben Roy") "Stores" "Driver" true None])
    as (_ & _ & _ & Hother & Hthis & _).
  split.
  - apply (Hother 0 _ eq_refl). discriminate.
  - apply (Hthis 1 _ _ eq_refl eq_refl). reflexivity.
Defined.

(** X21: Only [Apply] changes the applied department selection: whatever is
    opened, checked, unchecked or cancelled, the list is filtered by the
    selection as it was, and the dialog opens again on that selection. *)
Theorem dialog_applies_only_on_apply (d : DirectoryUI.FilterDialog)
    (events : list DirectoryUI.DialogEvent) :
  DirectoryUI.Apply ∉ events ->
  let d' := foldl DirectoryUI.dialog_step d events in
  DirectoryUI.selectedDepartments d' = DirectoryUI.selectedDepartments d
  /\ DirectoryUI.pendingDepartments (DirectoryUI.dialog_step d' DirectoryUI.OpenFilter)
     = DirectoryUI.selectedDepartments d.
Proof.
  intros Hev. cbv zeta.
  assert (H : DirectoryUI.selectedDepartments (foldl DirectoryUI.dialog_step d events)
              = DirectoryUI.selectedDepartments d).
  { revert d. induction events as [|e events IH]; intros d; [done|].
    apply not_elem_of_cons in Hev as [He Hev]. cbn [foldl].
    rewrite (IH Hev). by destruct e. }
  split; [done|]. cbn. done.
Qed.

Lemma dialog_applies_only_on_apply_witness :
  DirectoryUI.selectedDepartments
    (foldl DirectoryUI.dialog_step (DirectoryUI.mkDialog ["Sales"] [] false)
       [DirectoryUI.OpenFilter; DirectoryUI.Check "Stores" true;
        DirectoryUI.Check "Sales" false; DirectoryUI.Cancel])
  = ["Sales"].
Proof.
  refine (proj1 (dialog_applies_only_on_apply (DirectoryUI.mkDialog ["Sales"] [] false)
                   [DirectoryUI.OpenFilter; DirectoryUI.Check "Stores" true;
                    DirectoryUI.Check "Sales" false; DirectoryUI.Cancel] _)).
  repeat (apply not_elem_of_cons; split; [discriminate|]). apply not_elem_of_nil.
Defined.

Lemma filter_neq_absent (dept : string) (l : list string) :
  dept ∉ l -> filter (fun x => x <> dept) l = l.
Proof.
  induction l as [|x l IH]; [done|]. intros [Hx Hl]%not_elem_of_cons.
  rewrite filter_cons_True by done. by rewrite IH.
Qed.

Lemma filter_neq_present (dept : string) (l : list string) :
  NoDup l -> dept ∈ l -> filter (fun x => x <> dept) l ++ [dept] ≡ₚ l.
Proof.
  induction l as [|x l IH]; intros Hnd Hin; [by apply elem_of_nil in Hin|].
  apply NoDup_cons in Hnd as [Hx Hnd].
  destruct (decide (x = dept)) as [->|Hne].
  - rewrite filter_cons_False by (intros H; by apply H).
    rewrite filter_neq_absent by done. symmetry. apply Permutation_cons_append.
  - rewrite filter_cons_True by done. cbn. f_equiv. apply IH; [done|].
    apply elem_of_cons in Hin as [->|]; done.
Qed.

(** X22: A click on a department's box in the filter dialog toggles that
    department in the pending selection and no other; the pending selection
    stays free of repetitions, the applied one is not touched, and a second
    click gives back the selection there was, up to the order. *)
Theorem click_toggles (dept : string) (d : DirectoryUI.FilterDialog) :
  NoDup (DirectoryUI.pendingDepartments d) ->
  let d' := DirectoryUI.click dept d in
  NoDup (DirectoryUI.pendingDepartments d')
  /\ (dept ∈ DirectoryUI.pendingDepartments d'
      <-> dept ∉ DirectoryUI.pendingDepartments d)
  /\ (forall x, x <> dept ->
        x ∈ DirectoryUI.pendingDepartments d' <-> x ∈ DirectoryUI.pendingDepartments d)
  /\ DirectoryUI.selectedDepartments d' = DirectoryUI.selectedDepartments d
  /\ DirectoryUI.pendingDepartments (DirectoryUI.click dept d')
     ≡ₚ DirectoryUI.pendingDepartments d.
Proof.
  intros Hnd. cbv zeta. unfold DirectoryUI.click.
  destruct d as [sel pend shown]. cbn [DirectoryUI.pendingDepartments] in *.
  case_bool_decide as Hin; cbn [negb DirectoryUI.dialog_step DirectoryUI.pendingDepartments
    DirectoryUI.selectedDepartments DirectoryUI.showFilter].
  - assert (Hout : dept ∉ filter (fun x => x <> dept) pend)
      by (rewrite list_elem_of_filter; intros [Hne _]; by apply Hne).
    rewrite bool_decide_eq_false_2 by done. cbn [negb].
    repeat match goal with |- _ /\ _ => split end; try done.
    + by apply NoDup_filter.
    + intros x Hx. rewrite list_elem_of_filter. tauto.
    + by apply filter_neq_present.
  - assert (Hnow : dept ∈ pend ++ [dept]) by (apply elem_of_app; right; by left).
    rewrite bool_decide_eq_true_2 by done. cbn [negb].
    repeat match goal with |- _ /\ _ => split end; try done.
    + apply NoDup_app. repeat split; [done| |apply NoDup_singleton].
      intros x Hx ->%list_elem_of_singleton. done.
    + intros x Hx. rewrite elem_of_app, list_elem_of_singleton. tauto.
    + rewrite filter_app, filter_neq_absent by done.
      rewrite filter_cons_False by (intros H; by apply H). by rewrite app_nil_r.
Qed.

Lemma click_toggles_witness :
  DirectoryUI.pendingDepartments
    (DirectoryUI.click "Sales"
       (DirectoryUI.click "Sales" (DirectoryUI.mkDialog [] ["Sales"; "Stores"] true)))
  ≡ₚ ["Sales"; "Stores"].
Proof.
  refine (proj2 (proj2 (proj2 (proj2
    (click_toggles "Sales" (DirectoryUI.mkDialog [] ["Sales"; "Stores"] true) _))))).
  apply (bool_decide_unpack _). vm_compute. reflexivity.
Defined.

(** * Further properties: what the tracker displays *)

(** X23: The two filters of the tracker compose; with no search text and the
    department ['all'] every loaded record is listed; a listed record is a
    loaded one and, when a department is selected, one labelled with it: a
    record with no department is listed under ['N/A']. *)
Theorem tracker_filters_compose (toLowerCase : string -> string)
    (white : Ascii.ascii -> bool) (q dep : string)
    (rs : list TrackerView.AttendanceRecord) :
  TrackerView.filteredBySearch toLowerCase white "" "all" rs = rs
  /\ TrackerView.filteredBySearch toLowerCase white q dep rs
     = TrackerView.filteredBySearch toLowerCase white "" dep
         (TrackerView.filteredBySearch toLowerCase white q "all" rs)
  /\ (forall r, r ∈ TrackerView.filteredBySearch toLowerCase white q dep rs ->
        r ∈ rs
        /\ (dep = "" \/ dep = "all"
            \/ TrackerView.normalizeDepartment white (TrackerView.department r) = dep))
  /\ (forall r, r ∈ rs -> TrackerView.department r = None ->
        r ∈ TrackerView.filteredBySearch toLowerCase white "" "N/A" rs).
Proof.
  unfold TrackerView.filteredBySearch. split; [|split; [|split]].
  - by apply filter_all_bool.
  - rewrite filter_filter_bool. apply List.filter_ext. intros r.
    unfold TrackerView.recordShown.
    change (truthy_str "") with false. change (String.eqb "all" "all") with true.
    cbn [andb negb]. rewrite andb_false_r.
    by destruct (truthy_str q && _).
  - intros r [Hr Hs]%elem_of_filter_bool. split; [done|].
    unfold TrackerView.recordShown in Hs.
    destruct (truthy_str q && _); [done|].
    unfold truthy_str in Hs.
    destruct (String.eqb_spec dep ""); [by left|].
    destruct (String.eqb_spec dep "all"); [by right; left|].
    right; right. cbn [andb negb] in Hs.
    by destruct (String.eqb_spec (TrackerView.normalizeDepartment white
                                    (TrackerView.department r)) dep).
  - intros r Hr Hd. apply elem_of_filter_bool. split; [done|].
    unfold TrackerView.recordShown. rewrite Hd. reflexivity.
Qed.

Lemma tracker_filters_compose_witness :
  let r1 := TrackerView.mkRecord (mkRow 1 "E1" "Asha Rao") None in
  let r2 := TrackerView.mkRecord (mkRow 2 "E2" "Ben Roy") (Some "Sales") in
  r1 ∈ TrackerView.filteredBySearch ascii_toLowerCase ascii_white "" "N/A" [r1; r2].
Proof.
  cbv zeta.
  apply (proj2 (proj2 (proj2 (tracker_filters_compose ascii_toLowerCase ascii_white
                                "" "N/A" _)))); [|reflexivity].
  by left.
Defined.

(** X24: The card "total employees": with a search text or a department
    selected, or before any totals have arrived, it counts the records
    listed, which are never more than the records loaded; with totals and no
    filter it shows the total of the backend, whatever is loaded. *)
Theorem kpi_total_employees (toLowerCase : string -> string)
    (white : Ascii.ascii -> bool) (kpiTotals : option TrackerView.KpiTotals)
    (q dep : string) (rs : list TrackerView.AttendanceRecord) :
  (TrackerView.isFiltered q dep = true \/ kpiTotals = None ->
     TrackerView.totalEmployees toLowerCase white kpiTotals q dep rs
     = length (TrackerView.filteredBySearch toLowerCase white q dep rs)
     /\ TrackerView.totalEmployees toLowerCase white kpiTotals q dep rs <= length rs)
  /\ (forall k, kpiTotals = Some k -> TrackerView.isFiltered q dep = false ->
        TrackerView.totalEmployees toLowerCase white kpiTotals q dep rs
        = TrackerView.total_employees k
        /\ TrackerView.filteredBySearch toLowerCase white q dep rs = rs).
Proof.
  split.
  - intros H.
    assert (E : TrackerView.totalEmployees toLowerCase white kpiTotals q dep rs
                = length (TrackerView.filteredBySearch toLowerCase white q dep rs)).
    { unfold TrackerView.totalEmployees. destruct kpiTotals as [k|]; [|done].
      destruct H as [->|]; done. }
    rewrite E. split; [done|]. apply filter_bool_length.
  - intros k -> Hf. unfold TrackerView.totalEmployees. rewrite Hf. split; [done|].
    unfold TrackerView.isFiltered in Hf.
    apply orb_false_iff in Hf as [Hq Hd]. apply negb_false_iff in Hq, Hd.
    apply String.eqb_eq in Hq, Hd. subst.
    unfold TrackerView.filteredBySearch. by apply filter_all_bool.
Qed.

Lemma kpi_total_employees_witness :
  let r1 := TrackerView.mkRecord (mkRow 1 "E1" "Asha Rao") None in
  let r2 := TrackerView.mkRecord (mkRow 2 "E2" "Ben Roy") (Some "Sales") in
  TrackerView.totalEmployees ascii_toLowerCase ascii_white
    (Some (TrackerView.mkKpi 250)) "asha" "all" [r1; r2] <= 2
  /\ TrackerView.totalEmployees ascii_toLowerCase ascii_white
       (Some (TrackerView.mkKpi 250)) "" "all" [r1; r2] = 250.
Proof.
  cbv zeta. split.
  - refine (proj2 (proj1 (kpi_total_employees ascii_toLowerCase ascii_white
                            (Some (TrackerView.mkKpi 250)) "asha" "all" _) _)).
    left. reflexivity.
  - refine (proj1 (proj2 (kpi_total_employees ascii_toLowerCase ascii_white
                            (Some (TrackerView.mkKpi 250)) "" "all" _) _ eq_refl eq_refl)).
Defined.

(** * Further properties: the records as they are stored *)

(** X25: Both loaders store what the backend sent with the identities and
    the order unchanged and with a name that is never empty: the tracker
    stores ['Unknown'] for a name that is missing or that its clean-up leaves
    empty, whatever the string operations do; the directory stores ["-"] for
    a name that is missing or ["0"], so that no stored name is ["0"], and
    mapping stored records again changes nothing. *)
Theorem stored_records {ops : StringOps} (page : list Row) :
  let t := Tracker.transformStandardToAttendanceRecords page in
  let d := Directory.processedData page in
  (id <$> t = id <$> page /\ employee_id <$> t = employee_id <$> page
   /\ Forall (fun record => name record <> "") t)
  /\ (id <$> d = id <$> page /\ employee_id <$> d = employee_id <$> page
      /\ Forall (fun employee => name employee <> "" /\ name employee <> "0") d
      /\ Directory.processedData d = d).
Proof.
  cbv zeta. split; [split; [|split]|split; [|split; [|split]]].
  - apply transform_id.
  - apply transform_employee_id.
  - apply Forall_fmap, Forall_forall. intros record _. cbn.
    unfold Tracker.cleanEmployeeName.
    destruct (negb (truthy_str _)); [done|]. cbv zeta.
    destruct (truthy_str (trim _)) eqn:E; [|done].
    intros H. rewrite H in E. done.
  - apply processedData_id.
  - apply processedData_employee_id.
  - apply Forall_fmap, Forall_forall. intros employee _. cbn.
    destruct (String.eqb_spec (name employee) "") as [->|H1]; [done|].
    by destruct (String.eqb_spec (name employee) "0") as [->|H2].
  - unfold Directory.processedData. rewrite <- list_fmap_compose.
    apply list_fmap_ext. intros _ employee _. cbn. f_equal.
    destruct (String.eqb_spec (name employee) "") as [->|H1]; [done|].
    destruct (String.eqb_spec (name employee) "0") as [->|H2]; [done|]. cbn.
    destruct (String.eqb_spec (name employee) "") as [|_]; [done|].
    by destruct (String.eqb_spec (name employee) "0").
Qed.
